(** * Weather tool provider and model client: a shallow embedding

    The repository holds two TypeScript programs:

    - the tool provider (the MCP server with the tools [get_coordinates],
      [get_alerts] and [get_forecast], and the helpers [makeNWSRequest] and
      [getCoordinates]);
    - the client ([src/client.ts]), whose [runAgent] discovers the tools,
      turns them into function declarations for the model and runs one
      call-and-respond round.

    Both are asynchronous programs whose only effects are calls to outside
    services and console output.  They are embedded in a small monad that
    threads the list of effects performed so far and carries a JavaScript
    exception; the outside services are oracles gathered in a record. *)

From Stdlib Require Import Ascii String DecimalString List Arith Bool Lia.
From stdpp Require Import base option list strings gmap.
Import ListNotations.

Local Open Scope string_scope.
Local Open Scope list_scope.
Local Open Scope nat_scope.

(** ** JavaScript runtime: completions, effects, strings *)

Module Js.

(** A computation either completes with a value or throws. *)
Inductive completion (Err A : Type) : Type :=
| Normal (a : A)
| Abrupt (e : Err).
Arguments Normal {Err A} a.
Arguments Abrupt {Err A} e.

(** [M Ev Err A]: a computation that appends the effects it performs to the
    trace (oldest first) and completes normally or abruptly. *)
Definition M (Ev Err A : Type) : Type := list Ev → completion Err A * list Ev.

Section Monad.
Context {Ev Err : Type}.

Definition ret {A} (a : A) : M Ev Err A := λ tr, (Normal a, tr).

Definition bind {A B} (m : M Ev Err A) (k : A → M Ev Err B) : M Ev Err B :=
  λ tr, match m tr with
        | (Normal a, tr') => k a tr'
        | (Abrupt e, tr') => (Abrupt e, tr')
        end.

(** [throw e] *)
Definition throw {A} (e : Err) : M Ev Err A := λ tr, (Abrupt e, tr).

(** [try { body } catch (error) { handler }]: the effects of the body
    up to the throw stay in the trace. *)
Definition try_catch {A} (body : M Ev Err A) (handler : Err → M Ev Err A)
  : M Ev Err A :=
  λ tr, match body tr with
        | (Normal a, tr') => (Normal a, tr')
        | (Abrupt e, tr') => handler e tr'
        end.

(** Performing one effect. *)
Definition emit (e : Ev) : M Ev Err unit := λ tr, (Normal tt, tr ++ [e]).

(** Running a computation from the empty trace. *)
Definition run {A} (m : M Ev Err A) : completion Err A * list Ev := m [].
End Monad.

#[global] Instance M_ret {Ev Err} : MRet (M Ev Err) := λ A, ret.
#[global] Instance M_bind {Ev Err} : MBind (M Ev Err) := λ A B k m, bind m k.

(** What can be thrown in the two programs. *)
Inductive Error : Type :=
| URIError                      (* [encodeURIComponent] on a lone surrogate *)
| FetchFailed                   (* [fetch] rejected: no response at all *)
| HttpError (status : nat)      (* [new Error(`HTTP error! status: ...`)] *)
| SyntaxError                   (* [response.json()] rejected *)
| Rejection (message : string). (* a rejected promise of one of the SDKs *)

(** Upper-casing of the letters a-z, every other character left as it is:
    what [String.prototype.toUpperCase] does on ASCII text.  The provider
    takes the runtime's function as a parameter; this one states what that
    function does on ASCII letters and stands for it in the examples. *)
Definition is_lower (c : ascii) : bool :=
  (97 <=? nat_of_ascii c) && (nat_of_ascii c <=? 122).
Definition is_upper (c : ascii) : bool :=
  (65 <=? nat_of_ascii c) && (nat_of_ascii c <=? 90).
Definition is_letter (c : ascii) : bool := is_lower c || is_upper c.

Definition upper (c : ascii) : ascii :=
  if is_lower c then ascii_of_nat (nat_of_ascii c - 32) else c.

Fixpoint toUpperCaseAscii (s : string) : string :=
  match s with
  | EmptyString => EmptyString
  | String c s' => String (upper c) (toUpperCaseAscii s')
  end.

(** [Array.prototype.join]. *)
Definition join (sep : string) (l : list string) : string := String.concat sep l.

(** A value of type [string | undefined] inside a template literal. *)
Definition interpolate (o : option string) : string := default "undefined" o.

(** Truthiness of a string: only the empty string is falsy. *)
Definition truthy (s : string) : bool := negb (String.eqb s "").

(** Optional chaining [o?.f] on a value that may be absent. *)
Definition chain {A B} (o : option A) (f : A → option B) : option B :=
  match o with
  | Some a => f a
  | None => None
  end.

Definition LF : string := String "010" EmptyString.

(** [t] occurs in [s]. *)
Definition includes (s t : string) : Prop := ∃ pre post, s = pre +:+ t +:+ post.

End Js.

Import Js.

Notation "o ?. f" := (chain o f) (at level 19, left associativity, format "o ?. f").

(** ** The result of a tool call, shared by provider and client *)

Record ContentBlock := { type : string; text : string }.

Record ToolResult := { content : list ContentBlock }.

Definition text_block (s : string) : ContentBlock := {| type := "text"; text := s |}.

(** ** The tool provider *)

Module Server.

Definition NWS_API_BASE : string := "https://api.weather.gov".
Definition USER_AGENT : string := "weather-app/1.0".

Definition Headers : Type := list (string * string).

(** Effects of the provider: HTTP requests and diagnostics. *)
Inductive Event : Type :=
| Fetch (url : string) (headers : Headers)
| ConsoleError (label : string) (error : Error).

(** *** What [fetch] can answer

    [response.json()] rejects on a malformed body, and yields the decoded
    value otherwise; JSON [null] is a value of no declared interface and is
    kept apart.  The programs cast the decoded value to a declared interface
    without a check ([as T]), so the model takes it at that interface. *)
Inductive Body (T : Type) : Type :=
| Malformed
| JsonNull
| Json (v : T).
Arguments Malformed {T}.
Arguments JsonNull {T}.
Arguments Json {T} v.

Record Response (T : Type) := { ok : bool; status : nat; body : Body T }.
Arguments ok {T} r.
Arguments status {T} r.
Arguments body {T} r.

Inductive FetchResult (T : Type) : Type :=
| NoResponse
| Responded (r : Response T).
Arguments NoResponse {T}.
Arguments Responded {T} r.

(** An HTTP service, seen at the type its answers are cast to. *)
Definition Service (T : Type) : Type := string → Headers → FetchResult T.

(** *** Interfaces of the source *)

Record GeocodingResult := { lat : string; lon : string; display_name : string }.

Record AlertProperties := {
  event : option string;
  areaDesc : option string;
  severity : option string;
  alert_status : option string;
  headline : option string }.

Record AlertFeature := { alert_properties : AlertProperties }.

(** [features] is declared mandatory, the handler guards it with [|| []]. *)
Record AlertsResponse := { features : option (list AlertFeature) }.

Record PointsProperties := { forecast : option string }.

(** [properties] is declared mandatory, the handler guards it with [?.]. *)
Record PointsResponse := { points_properties : option PointsProperties }.

Section Tools.

(** JavaScript numbers and the two conversions the handlers use are kept
    abstract: [Number.prototype.toFixed] and the conversion of a number
    inside a template literal. *)
Context {number : Type}.
Variable toFixed : number → nat → string.
Variable toString : number → string.

(** [encodeURIComponent] fails (with a URIError) on a string holding a
    lone surrogate. *)
Variable encodeURIComponent : string → option string.

(** [String.prototype.toUpperCase], which maps the letters of every
    alphabet. *)
Variable toUpperCase : string → string.

Record ForecastPeriod := {
  name : option string;
  temperature : option number;
  temperatureUnit : option string;
  windSpeed : option string;
  windDirection : option string;
  shortForecast : option string }.

Record ForecastProperties := { periods : option (list ForecastPeriod) }.

Record ForecastResponse := { forecast_properties : option ForecastProperties }.

(** The services the provider talks to. *)
Record Network := {
  nominatim : Service (list GeocodingResult);
  nws_alerts : Service AlertsResponse;
  nws_points : Service PointsResponse;
  nws_forecast : Service ForecastResponse }.

Abbreviation IO := (M Event Error).

(** [await fetch(url, { headers })] *)
Definition fetch {T} (service : Service T) (url : string) (headers : Headers)
  : IO (Response T) :=
  emit (Fetch url headers);;
  match service url headers with
  | NoResponse => throw FetchFailed
  | Responded r => mret r
  end.

(** [await response.json()], [None] for JSON [null]. *)
Definition json {T} (response : Response T) : IO (option T) :=
  match body response with
  | Malformed => throw SyntaxError
  | JsonNull => mret None
  | Json v => mret (Some v)
  end.

Definition makeNWSRequest {T} (service : Service T) (url : string) : IO (option T) :=
  let headers :=
    [("User-Agent", USER_AGENT); ("Accept", "application/geo+json")] in
  try_catch
    (response ← fetch service url headers;
     if negb (ok response) then throw (HttpError (status response))
     else json response)
    (λ error,
       emit (ConsoleError "Error making NWS request:" error);;
       mret None).

Definition getCoordinates (net : Network) (city state : string)
  : IO (option GeocodingResult) :=
  match encodeURIComponent city, encodeURIComponent state with
  | Some c, Some s =>
      let url := "https://nominatim.openstreetmap.org/search?q=" +:+ c +:+ ","
                 +:+ s +:+ "&format=json&limit=1" in
      let headers := [("User-Agent", USER_AGENT)] in
      try_catch
        (response ← fetch (nominatim net) url headers;
         if negb (ok response) then throw (HttpError (status response))
         else
           data ← json response;
           match data with
           | Some (first :: _) => mret (Some first)
           | _ => mret None
           end)
        (λ error,
           emit (ConsoleError "Error fetching coordinates:" error);;
           mret None)
  | _, _ => throw URIError
  end.

(** *** The three registered tools *)

Definition get_coordinates (net : Network) (city state : string) : IO ToolResult :=
  coords ← getCoordinates net city state;
  match coords with
  | None =>
      mret {| content :=
        [text_block ("Could not find coordinates for " +:+ city +:+ ", "
                     +:+ state +:+ ".")] |}
  | Some coords =>
      mret {| content :=
        [text_block ("Location: " +:+ display_name coords +:+ LF
                     +:+ "Latitude: " +:+ lat coords +:+ LF
                     +:+ "Longitude: " +:+ lon coords)] |}
  end.

Definition format_alert (f : AlertFeature) : string :=
  "Event: " +:+ interpolate (event (alert_properties f)) +:+ LF
  +:+ "Severity: " +:+ interpolate (severity (alert_properties f)) +:+ LF
  +:+ "Headline: " +:+ interpolate (headline (alert_properties f)) +:+ LF
  +:+ "---".

Definition get_alerts (net : Network) (state : string) : IO ToolResult :=
  let stateCode := toUpperCase state in
  let alertsUrl := NWS_API_BASE +:+ "/alerts?area=" +:+ stateCode in
  alertsData ← makeNWSRequest (nws_alerts net) alertsUrl;
  match alertsData with
  | None => mret {| content := [text_block "Failed to retrieve alerts data"] |}
  | Some alertsData =>
      let features := default [] (features alertsData) in
      if length features =? 0 then
        mret {| content := [text_block ("No active alerts for " +:+ stateCode)] |}
      else
        let formattedAlerts := map format_alert features in
        mret {| content :=
          [text_block ("Active alerts for " +:+ stateCode +:+ ":" +:+ LF +:+ LF
                       +:+ join LF formattedAlerts)] |}
  end.

(** The degree sign as the source file spells it (four bytes). *)
Definition degree : string :=
  String "195" (String "130" (String "194" (String "176" EmptyString))).

Definition format_period (period : ForecastPeriod) : string :=
  interpolate (name period) +:+ ": "
  +:+ interpolate (toString <$> temperature period) +:+ degree
  +:+ interpolate (temperatureUnit period) +:+ " - "
  +:+ interpolate (shortForecast period).

(** [pointsData?.properties?.forecast], [None] when it is falsy. *)
Definition forecast_url (pointsData : option PointsResponse) : option string :=
  match pointsData?.points_properties?.forecast with
  | Some url => if truthy url then Some url else None
  | None => None
  end.

Definition get_forecast (net : Network) (latitude longitude : number)
  : IO ToolResult :=
  let pointsUrl := NWS_API_BASE +:+ "/points/" +:+ toFixed latitude 4 +:+ ","
                   +:+ toFixed longitude 4 in
  pointsData ← makeNWSRequest (nws_points net) pointsUrl;
  match forecast_url pointsData with
  | None =>
      mret {| content :=
        [text_block "Failed to get forecast URL. Location might be outside US."] |}
  | Some url =>
      forecastData ← makeNWSRequest (nws_forecast net) url;
      let periods :=
        default [] (forecastData?.forecast_properties?.periods) in
      if length periods =? 0 then
        mret {| content := [text_block "No forecast periods available"] |}
      else
        let formattedForecast := map format_period periods in
        mret {| content :=
          [text_block ("Forecast for " +:+ toString latitude +:+ ", "
                       +:+ toString longitude +:+ ":" +:+ LF +:+ LF
                       +:+ join LF formattedForecast)] |}
  end.

End Tools.

End Server.

Arguments Server.ForecastPeriod : clear implicits.
Arguments Server.ForecastProperties : clear implicits.
Arguments Server.ForecastResponse : clear implicits.
Arguments Server.Network : clear implicits.

(** ** The client *)

Module Client.

(** [SchemaType] of the model SDK. *)
Inductive SchemaType : Type := STRING | NUMBER | INTEGER | BOOLEAN | ARRAY | OBJECT.

Section Agent.

(** The schema of one parameter and the argument object of a call are
    passed on as they are: the client never looks inside them. *)
Context {PropertySchema Args : Type}.

(** A tool as [listTools] reports it.  The client reads [inputSchema] as
    [any]: each of its fields may be absent. *)
Record InputSchema := {
  type_tag : option string;
  properties : option (gmap string PropertySchema);
  required : option (list string) }.

Record Tool := {
  name : string;
  description : option string;
  inputSchema : InputSchema }.

Record FunctionDeclarationSchema := {
  schema_type : SchemaType;
  schema_properties : option (gmap string PropertySchema);
  schema_required : option (list string) }.

Record FunctionDeclaration := {
  fd_name : string;
  fd_description : option string;
  parameters : FunctionDeclarationSchema }.

Record GeminiTool := { functionDeclarations : list FunctionDeclaration }.

(** The conversion of step 3 of [runAgent]. *)
Definition geminiTools (tools : list Tool) : list GeminiTool :=
  [{| functionDeclarations :=
        map (λ tool,
               {| fd_name := name tool;
                  fd_description := description tool;
                  parameters :=
                    {| schema_type := OBJECT;
                       schema_properties := properties (inputSchema tool);
                       schema_required := required (inputSchema tool) |} |})
            tools |}].

Record FunctionCall := { call_name : string; args : Args }.

(** A response of the model: its text, and [functionCalls()]. *)
Record ModelResponse := {
  response_text : string;
  functionCalls : option (list FunctionCall) }.

(** What [chat.sendMessage] is given. *)
Inductive Message : Type :=
| Prompt (text : string)
| FunctionResponse (name : string) (response_content : list ContentBlock).

(** The chat session: the tools it was started with and what was sent. *)
Record ChatSession := { chat_tools : list GeminiTool; history : list Message }.

Inductive Printed : Type :=
| PString (s : string)
| PArgs (a : Args).

(** Effects of the client. *)
Inductive Event : Type :=
| Connect (command : string) (arguments : list string)
| ListTools
| SendMessage (message : Message)
| CallTool (name : string) (arguments : Args)
| ConsoleLog (line : list Printed)
| ConsoleError (error : Error).

(** The two peers of the client: the tool provider behind the transport
    and the model service. *)
Record Peers := {
  connect : completion Error unit;
  listTools : completion Error (list Tool);
  callTool : string → Args → completion Error ToolResult;
  generate : list GeminiTool → list Message → completion Error ModelResponse }.

Abbreviation IO := (M Event Error).

(** Settling an awaited promise. *)
Definition await {A} (c : completion Error A) : IO A := λ tr, (c, tr).

Definition startChat (tools : list GeminiTool) : ChatSession :=
  {| chat_tools := tools; history := [] |}.

Definition sendMessage (peers : Peers) (chat : ChatSession) (message : Message)
  : IO (ModelResponse * ChatSession) :=
  emit (SendMessage message);;
  let sent := history chat ++ [message] in
  response ← await (generate peers (chat_tools chat) sent);
  mret (response, {| chat_tools := chat_tools chat; history := sent |}).

Definition prompt : string := "Is it going to rain in Livermore, CA?".

Definition runAgent (peers : Peers) : IO unit :=
  emit (Connect "node" ["./build/index.js"]);;
  await (connect peers);;
  emit ListTools;;
  tools ← await (listTools peers);
  let chat := startChat (geminiTools tools) in
  emit (ConsoleLog [PString ("User: " +:+ prompt)]);;
  '(result, chat) ← sendMessage peers chat (Prompt prompt);
  match (functionCalls result)?.head with
  | Some call =>
      emit (ConsoleLog [PString ("Agent wants to call: " +:+ call_name call
                                 +:+ " with"); PArgs (args call)]);;
      emit (CallTool (call_name call) (args call));;
      toolResponse ← await (callTool peers (call_name call) (args call));
      '(finalResponse, _) ←
        sendMessage peers chat
          (FunctionResponse (call_name call) (content toolResponse));
      emit (ConsoleLog [PString "Agent:"; PString (response_text finalResponse)])
  | None => mret tt
  end.

(** [runAgent().catch(console.error)] *)
Definition main (peers : Peers) : IO unit :=
  try_catch (runAgent peers) (λ error, emit (ConsoleError error)).

End Agent.

Arguments InputSchema : clear implicits.
Arguments Tool : clear implicits.
Arguments FunctionDeclarationSchema : clear implicits.
Arguments FunctionDeclaration : clear implicits.
Arguments GeminiTool : clear implicits.
Arguments FunctionCall : clear implicits.
Arguments ModelResponse : clear implicits.
Arguments ChatSession : clear implicits.
Arguments Printed : clear implicits.
Arguments Event : clear implicits.
Arguments Peers : clear implicits.

End Client.

(** * Vocabulary of the statements *)

(** ** The tool provider *)

Module ServerSpec.
Import Server.

(** The headers [makeNWSRequest] and [getCoordinates] send. *)
Definition nws_headers : Headers :=
  [("User-Agent", USER_AGENT); ("Accept", "application/geo+json")].
Definition nominatim_headers : Headers := [("User-Agent", USER_AGENT)].

(** What a reply delivers: the decoded value of a successful response with
    a well-formed body other than [null]. *)
Definition payload {T} (reply : FetchResult T) : option T :=
  match reply with
  | NoResponse => None
  | Responded r =>
      if ok r then match body r with Json v => Some v | _ => None end else None
  end.

(** What the [catch] block of a helper prints for a reply. *)
Definition diagnostic {T} (label : string) (reply : FetchResult T) : list Event :=
  match reply with
  | NoResponse => [ConsoleError label FetchFailed]
  | Responded r =>
      if ok r then
        match body r with
        | Malformed => [ConsoleError label SyntaxError]
        | _ => []
        end
      else [ConsoleError label (HttpError (status r))]
  end.

(** The requests in a trace, in order. *)
Definition requests (tr : list Event) : list string :=
  omap (λ e, match e with Fetch url _ => Some url | _ => None end) tr.

Section Forecast.
Context {number : Type} (toFixed : number → nat → string)
        (toString : number → string).

Definition pointsUrl (latitude longitude : number) : string :=
  NWS_API_BASE +:+ "/points/" +:+ toFixed latitude 4 +:+ ","
  +:+ toFixed longitude 4.

(** The reply of the points lookup and the locator the handler draws
    from it. *)
Definition points_reply (net : Network number) latitude longitude :=
  nws_points net (pointsUrl latitude longitude) nws_headers.

Definition locator (net : Network number) latitude longitude : option string :=
  forecast_url (payload (points_reply net latitude longitude)).

Definition periods_reply (net : Network number) (url : string) :=
  nws_forecast net url nws_headers.

Definition periods_of (net : Network number) (url : string)
  : list (Server.ForecastPeriod number) :=
  default [] ((payload (periods_reply net url))?.forecast_properties?.periods).

End Forecast.

Section Alerts.
Context {number : Type} (toUpperCase : string → string).

Definition alertsUrl (state : string) : string :=
  NWS_API_BASE +:+ "/alerts?area=" +:+ toUpperCase state.

Definition alerts_reply (net : Network number) (state : string) :=
  nws_alerts net (alertsUrl state) nws_headers.
End Alerts.

Section Coordinates.
Context {number : Type}.

Definition searchUrl (c s : string) : string :=
  "https://nominatim.openstreetmap.org/search?q=" +:+ c +:+ "," +:+ s
  +:+ "&format=json&limit=1".

Definition search_reply (net : Network number) (c s : string) :=
  nominatim net (searchUrl c s) nominatim_headers.

Definition not_found_text (city state : string) : string :=
  "Could not find coordinates for " +:+ city +:+ ", " +:+ state +:+ ".".
End Coordinates.

(** *** Letter case of state codes *)

(** Two characters are the same letter when both are ASCII letters that
    are equal or 32 apart (the distance between the two cases). *)
Definition same_letter (a b : ascii) : bool :=
  is_letter a && is_letter b
  && ((nat_of_ascii a =? nat_of_ascii b)
      || (nat_of_ascii a =? nat_of_ascii b + 32)
      || (nat_of_ascii b =? nat_of_ascii a + 32)).

Fixpoint same_letters (s1 s2 : string) : bool :=
  match s1, s2 with
  | EmptyString, EmptyString => true
  | String a s1', String b s2' => same_letter a b && same_letters s1' s2'
  | _, _ => false
  end.

Fixpoint all_upper (s : string) : bool :=
  match s with
  | EmptyString => true
  | String c s' => is_upper c && all_upper s'
  end.

(** A string of ASCII letters. *)
Fixpoint all_letters (s : string) : bool :=
  match s with
  | EmptyString => true
  | String c s' => is_letter c && all_letters s'
  end.

End ServerSpec.

(** Concrete services for the examples. *)

Module ServerDemo.
Import Server.

(** Whole numbers of degrees stand for coordinates. *)
Definition toString (n : nat) : string := NilZero.string_of_uint (Nat.to_uint n).

Fixpoint zeros (digits : nat) : string :=
  match digits with
  | 0 => EmptyString
  | S d => String "0" (zeros d)
  end.

Definition toFixed (n : nat) (digits : nat) : string :=
  toString n +:+ "." +:+ zeros digits.

(** Percent-encoding of every byte that is not an unreserved mark. *)
Definition hex (n : nat) : ascii :=
  default "0"%char (String.get n "0123456789ABCDEF").

Definition unreserved (c : ascii) : bool :=
  is_letter c
  || ((48 <=? nat_of_ascii c) && (nat_of_ascii c <=? 57))
  || bool_decide (c ∈ list_ascii_of_string "-_.!~*'()").

Fixpoint percent_encode (s : string) : string :=
  match s with
  | EmptyString => EmptyString
  | String c s' =>
      (if unreserved c then String c EmptyString
       else String "%" (String (hex (nat_of_ascii c / 16))
                          (String (hex (nat_of_ascii c mod 16)) EmptyString)))
      +:+ percent_encode s'
  end.

Definition encodeURIComponent (s : string) : option string :=
  Some (percent_encode s).

Definition ok_json {T} (v : T) : FetchResult T :=
  Responded {| ok := true; status := 200; body := Json v |}.

Definition unavailable {T} : FetchResult T :=
  Responded {| ok := false; status := 503; body := Malformed |}.

(** No service answers. *)
Definition offline : Network nat :=
  Build_Network (λ _ _, NoResponse) (λ _ _, NoResponse)
                (λ _ _, NoResponse) (λ _ _, NoResponse).

Definition gridpoint : string :=
  "https://api.weather.gov/gridpoints/MTR/103,107/forecast".

Definition located : PointsResponse :=
  {| points_properties := Some {| forecast := Some gridpoint |} |}.

(** Every service answers, with nothing to report. *)
Definition quiet : Network nat :=
  Build_Network
    (λ _ _, ok_json [])
    (λ _ _, ok_json {| features := Some [] |})
    (λ _ _, ok_json located)
    (λ _ _, ok_json {| forecast_properties := Some {| periods := Some [] |} |}).

(** The points lookup answers, the forecast resource does not. *)
Definition stalled : Network nat :=
  Build_Network
    (λ _ _, ok_json [])
    (λ _ _, unavailable)
    (λ _ _, ok_json located)
    (λ _ _, unavailable).

End ServerDemo.

(** ** The client *)

Module ClientSpec.
Import Client.

Section Bridge.
Context {PropertySchema : Type}.

(** The function declarations handed to the model. *)
Definition declarations (tools : list (Tool PropertySchema))
  : list (FunctionDeclaration PropertySchema) :=
  geminiTools tools ≫= functionDeclarations.

(** The parameter names a schema declares. *)
Definition keys (properties : option (gmap string PropertySchema)) : gset string :=
  default ∅ (dom <$> properties).

(** Every required name is a declared parameter. *)
Definition required_declared (required : option (list string))
    (properties : option (gmap string PropertySchema)) : Prop :=
  Forall (λ r, r ∈ keys properties) (default [] required).

Definition tool_invariant (tool : Tool PropertySchema) : Prop :=
  required_declared (required (inputSchema tool)) (properties (inputSchema tool)).

Definition declaration_invariant (d : FunctionDeclaration PropertySchema) : Prop :=
  required_declared (schema_required (parameters d))
                    (schema_properties (parameters d)).

(** A tool with another type tag on its schema. *)
Definition retag (tag : option string) (tool : Tool PropertySchema)
  : Tool PropertySchema :=
  {| name := name tool;
     description := description tool;
     inputSchema :=
       {| type_tag := tag;
          properties := properties (inputSchema tool);
          required := required (inputSchema tool) |} |}.

End Bridge.

Section Loop.
Context {PropertySchema Args : Type}.
Implicit Types (peers : Peers PropertySchema Args) (tr : list (Event Args)).

(** The calls to the provider's transport in a trace, in order. *)
Definition tool_calls tr : list (string * Args) :=
  omap (λ e, match e with CallTool name a => Some (name, a) | _ => None end) tr.

(** What the client printed for the user as the agent's answer. *)
Definition answers tr : list string :=
  omap (λ e, match e with
             | ConsoleLog [PString "Agent:"; PString t] => Some t
             | _ => None
             end) tr.

(** The call the loop honours: the first one of the response. *)
Definition requested (result : ModelResponse Args) : option (FunctionCall Args) :=
  (functionCalls result)?.head.

(** The effects of [runAgent] up to the first answer of the model. *)
Definition opening : list (Event Args) :=
  [ Connect "node" ["./build/index.js"];
    ListTools;
    ConsoleLog [PString ("User: " +:+ prompt)];
    SendMessage (Prompt prompt) ].

Definition calling (call : FunctionCall Args) : list (Event Args) :=
  [ ConsoleLog [PString ("Agent wants to call: " +:+ call_name call +:+ " with");
                PArgs (args call)];
    CallTool (call_name call) (args call) ].

End Loop.

End ClientSpec.

(** Concrete peers for the examples. *)

Module ClientDemo.
Import Client.

Record Property := { property_type : string; property_description : string }.

Definition ArgumentObject : Type := list (string * string).

(** The three tools of the provider, as [listTools] reports them. *)
Definition weather_tools : list (Tool Property) :=
  [ {| name := "get_coordinates";
       description :=
         Some "Get latitude and longitude for a city. Use this BEFORE getting a forecast.";
       inputSchema :=
         {| type_tag := Some "object";
            properties := Some
              {[ "city" := {| property_type := "string";
                              property_description := "City name (e.g. Livermore)" |};
                 "state" := {| property_type := "string";
                               property_description := "Two-letter state code (e.g. CA)" |} ]};
            required := Some ["city"; "state"] |} |};
    {| name := "get_alerts";
       description := Some "Get weather alerts for a state";
       inputSchema :=
         {| type_tag := Some "object";
            properties := Some
              {[ "state" := {| property_type := "string";
                               property_description :=
                                 "Two-letter state code (e.g. CA, NY)" |} ]};
            required := Some ["state"] |} |};
    {| name := "get_forecast";
       description :=
         Some "Get weather forecast for a location (requires latitude/longitude)";
       inputSchema :=
         {| type_tag := None;
            properties := Some
              {[ "latitude" := {| property_type := "number";
                                  property_description := "Latitude of the location" |};
                 "longitude" := {| property_type := "number";
                                   property_description := "Longitude of the location" |} ]};
            required := Some ["latitude"; "longitude"] |} |} ].

(** What the provider's transport answers: a result for the tools it
    has, a rejection for any other name. *)
Definition transport (name : string) (arguments : ArgumentObject)
  : completion Error ToolResult :=
  if bool_decide (name ∈ map Client.name weather_tools) then
    Normal {| content := [text_block "Failed to retrieve alerts data"] |}
  else Abrupt (Rejection ("Tool " +:+ name +:+ " not found")).

(** A model that asks for a tool nobody declared. *)
Definition confused : Peers Property ArgumentObject :=
  {| connect := Normal tt;
     listTools := Normal weather_tools;
     callTool := transport;
     generate := λ _ _,
       Normal {| response_text := "";
                 functionCalls :=
                   Some [{| call_name := "get_weather";
                            args := [("city", "Livermore")] |}] |} |}.

(** A model that asks for the alerts of a state, then answers. *)
Definition helpful : Peers Property ArgumentObject :=
  {| connect := Normal tt;
     listTools := Normal weather_tools;
     callTool := transport;
     generate := λ _ sent,
       match sent with
       | [_] =>
           Normal {| response_text := "";
                     functionCalls :=
                       Some [{| call_name := "get_alerts";
                                args := [("state", "CA")] |}] |}
       | _ =>
           Normal {| response_text := "I could not check the alerts.";
                     functionCalls := None |}
       end |}.

(** A model that answers the prompt at once, in plain text. *)
Definition chatty : Peers Property ArgumentObject :=
  {| connect := Normal tt;
     listTools := Normal weather_tools;
     callTool := transport;
     generate := λ _ _,
       Normal {| response_text := "No rain is expected in Livermore today.";
                 functionCalls := None |} |}.

End ClientDemo.

(** ** The entry point of the tool provider *)

Module ServerMain.

(** Effects of [main] and of the handler of its rejection. *)
Inductive Event : Type :=
| Connect
| Diagnostic (line : string)
| Fatal (label : string) (error : Error)
| Exit (code : nat).

(** [await server.connect(transport)] settles as the transport decides. *)
Definition main (connect : completion Error unit) : M Event Error unit :=
  emit Connect;;
  (λ tr, (connect, tr));;
  emit (Diagnostic "Weather MCP Server running on stdio").

(** [main().catch((error) => { ...; process.exit(1); })] *)
Definition start (connect : completion Error unit) : M Event Error unit :=
  try_catch (main connect)
    (λ error,
       emit (Fatal "Fatal error in main():" error);;
       emit (Exit 1)).

End ServerMain.

(** ** More vocabulary *)

Module ServerSpecMore.
Import Server ServerSpec.

(** The fields of an alert that [get_alerts] prints. *)
Definition shown_alert (f : AlertFeature)
  : option string * option string * option string :=
  (event (alert_properties f), severity (alert_properties f),
   headline (alert_properties f)).

(** The fields of a period that [get_forecast] prints. *)
Definition shown_period {number} (p : ForecastPeriod number)
  : option string * option number * option string * option string :=
  (name p, temperature p, temperatureUnit p, shortForecast p).

(** The diagnostics in a trace. *)
Definition errors (tr : list Event) : list (string * Error) :=
  omap (λ e, match e with ConsoleError label error => Some (label, error) | _ => None end) tr.

End ServerSpecMore.

Module ServerDemoMore.
Import Server ServerDemo.

(** Strings being read as UTF-8, a lone surrogate (U+D800 to U+DFFF) shows
    as the byte 237 followed by a byte from 160 to 191, which well-formed
    UTF-8 never holds.  The encoder rejects such a string, as
    [encodeURIComponent] does, and percent-encodes every other one. *)
Fixpoint has_lone_surrogate (s : string) : bool :=
  match s with
  | EmptyString => false
  | String a s' =>
      match s' with
      | String b _ =>
          (nat_of_ascii a =? 237) && (160 <=? nat_of_ascii b)
          && (nat_of_ascii b <=? 191)
      | EmptyString => false
      end
      || has_lone_surrogate s'
  end.

Definition strict_encodeURIComponent (s : string) : option string :=
  if has_lone_surrogate s then None else Some (percent_encode s).

(** The one code unit U+D800, and a name with a letter outside ASCII. *)
Definition lone_surrogate : string :=
  String (ascii_of_nat 237) (String (ascii_of_nat 160) (String (ascii_of_nat 128) "")).

Definition evreux : string :=
  String (ascii_of_nat 195) (String (ascii_of_nat 137) "vreux").

Definition livermore : GeocodingResult :=
  {| lat := "37.6820583"; lon := "-121.7680531";
     display_name := "Livermore, Alameda County, California, United States" |}.

Definition livermore_falls : GeocodingResult :=
  {| lat := "44.4753391"; lon := "-70.1881128";
     display_name := "Livermore Falls, Androscoggin County, Maine, United States" |}.

Definition flood : AlertFeature :=
  {| alert_properties :=
       {| event := Some "Flood Watch"; areaDesc := Some "Alameda";
          severity := Some "Moderate"; alert_status := Some "Actual";
          headline := Some "Flood Watch issued for Alameda County" |} |}.

Definition wind : AlertFeature :=
  {| alert_properties :=
       {| event := Some "Wind Advisory"; areaDesc := None;
          severity := Some "Minor"; alert_status := None;
          headline := None |} |}.

(** [wind] with other values in the fields that are not printed. *)
Definition wind_elsewhere : AlertFeature :=
  {| alert_properties :=
       {| event := Some "Wind Advisory"; areaDesc := Some "Contra Costa";
          severity := Some "Minor"; alert_status := Some "Test";
          headline := None |} |}.

Definition tonight : ForecastPeriod nat :=
  {| name := Some "Tonight"; temperature := Some 52; temperatureUnit := Some "F";
     windSpeed := Some "5 mph"; windDirection := Some "W";
     shortForecast := Some "Mostly Clear" |}.

Definition tomorrow : ForecastPeriod nat :=
  {| name := Some "Thursday"; temperature := Some 71; temperatureUnit := Some "F";
     windSpeed := None; windDirection := None;
     shortForecast := Some "Sunny" |}.

Definition tonight_calm : ForecastPeriod nat :=
  {| name := Some "Tonight"; temperature := Some 52; temperatureUnit := Some "F";
     windSpeed := Some "0 mph"; windDirection := None;
     shortForecast := Some "Mostly Clear" |}.

(** Every service answers with something to report. *)
Definition stormy : Network nat :=
  Build_Network
    (λ _ _, ok_json [livermore; livermore_falls])
    (λ _ _, ok_json {| features := Some [flood; wind] |})
    (λ _ _, ok_json located)
    (λ _ _, ok_json {| forecast_properties :=
                         Some {| periods := Some [tonight; tomorrow] |} |}).

(** The same reports, with other values in the fields that are not printed. *)
Definition stormy_elsewhere : Network nat :=
  Build_Network
    (λ _ _, ok_json [livermore])
    (λ _ _, ok_json {| features := Some [flood; wind_elsewhere] |})
    (λ _ _, ok_json located)
    (λ _ _, ok_json {| forecast_properties :=
                         Some {| periods := Some [tonight_calm; tomorrow] |} |}).

(** The points lookup answers with an empty forecast locator. *)
Definition unlocated : Network nat :=
  Build_Network
    (λ _ _, ok_json [])
    (λ _ _, ok_json {| features := None |})
    (λ _ _, ok_json {| points_properties := Some {| forecast := Some "" |} |})
    (λ _ _, ok_json {| forecast_properties := None |}).

End ServerDemoMore.

Module ClientSpecMore.
Import Client.

Section Bridge.
Context {PropertySchema : Type}.

(** What the conversion reads of a tool. *)
Definition copied (tool : Tool PropertySchema)
  : string * option string * option (gmap string PropertySchema)
    * option (list string) :=
  (name tool, description tool, properties (inputSchema tool),
   required (inputSchema tool)).

End Bridge.

Section Loop.
Context {Args : Type}.

(** The messages sent to the model in a trace, in order. *)
Definition messages (tr : list (Event Args)) : list Message :=
  omap (λ e, match e with SendMessage m => Some m | _ => None end) tr.

(** What the client printed with [console.log]. *)
Definition printed (tr : list (Event Args)) : list (list (Printed Args)) :=
  omap (λ e, match e with ConsoleLog line => Some line | _ => None end) tr.

End Loop.

End ClientSpecMore.

Module ClientDemoMore.
Import Client ClientDemo.

(** A model that asks for two tools in one response. *)
Definition eager : Peers Property ArgumentObject :=
  {| connect := Normal tt;
     listTools := Normal weather_tools;
     callTool := transport;
     generate := λ _ sent,
       match sent with
       | [_] =>
           Normal {| response_text := "";
                     functionCalls :=
                       Some [{| call_name := "get_coordinates";
                                args := [("city", "Livermore"); ("state", "CA")] |};
                             {| call_name := "get_alerts";
                                args := [("state", "CA")] |}] |}
       | _ =>
           Normal {| response_text := "Livermore is in California.";
                     functionCalls := None |}
       end |}.

(** A model that asks for a tool nobody declared and a transport that
    resolves every call, answering an unknown name with a text. *)
Definition obliging : Peers Property ArgumentObject :=
  {| connect := Normal tt;
     listTools := Normal weather_tools;
     callTool := λ name _,
       if bool_decide (name ∈ map Client.name weather_tools) then
         Normal {| content := [text_block "Failed to retrieve alerts data"] |}
       else
         Normal {| content := [text_block ("Tool " +:+ name +:+ " not found")] |};
     generate := λ _ sent,
       match sent with
       | [_] =>
           Normal {| response_text := "";
                     functionCalls :=
                       Some [{| call_name := "get_weather";
                                args := [("city", "Livermore")] |}] |}
       | _ =>
           Normal {| response_text := "I cannot look that up.";
                     functionCalls := None |}
       end |}.

(** A provider that cannot be reached. *)
Definition unreachable : Peers Property ArgumentObject :=
  {| connect := Abrupt (Rejection "spawn node ENOENT");
     listTools := Normal weather_tools;
     callTool := transport;
     generate := generate helpful |}.

(** A provider that connects and then fails the discovery. *)
Definition mute : Peers Property ArgumentObject :=
  {| connect := Normal tt;
     listTools := Abrupt (Rejection "Request timed out");
     callTool := transport;
     generate := generate helpful |}.

(** A model service that rejects every request. *)
Definition refused : Peers Property ArgumentObject :=
  {| connect := Normal tt;
     listTools := Normal weather_tools;
     callTool := transport;
     generate := λ _ _, Abrupt (Rejection "API key not valid") |}.

End ClientDemoMore.

(** * Properties *)

(** ** Running computations *)

Section Running.
Context {Ev Err : Type}.

Lemma run_bind {A B} (m : M Ev Err A) (k : A → M Ev Err B) tr :
  (m ≫= k) tr =
  match m tr with
  | (Normal a, tr') => k a tr'
  | (Abrupt e, tr') => (Abrupt e, tr')
  end.
Proof. reflexivity. Qed.

Lemma run_ret {A} (a : A) (tr : list Ev) :
  (mret a : M Ev Err A) tr = (Normal a, tr).
Proof. reflexivity. Qed.

Lemma run_emit (e : Ev) (tr : list Ev) :
  (emit e : M Ev Err unit) tr = (Normal tt, tr ++ [e]).
Proof. reflexivity. Qed.
End Running.

Ltac step_io :=
  repeat first
    [ rewrite run_bind
    | rewrite run_emit
    | rewrite run_ret ].

(** ** The tool provider *)

Module ServerFacts.
Import Server ServerSpec.

Lemma requests_fetch url headers tr :
  requests (Fetch url headers :: tr) = url :: requests tr.
Proof. reflexivity. Qed.

Lemma requests_diagnostic {T} label (reply : FetchResult T) :
  requests (diagnostic label reply) = [].
Proof.
  destruct reply as [|[o st b]]; simpl; [reflexivity|].
  destruct o; [destruct b|]; reflexivity.
Qed.

(** [makeNWSRequest] never throws: it performs one request and returns
    what the reply delivers, [null] otherwise. *)
Lemma makeNWSRequest_run {T} (service : Service T) url tr :
  makeNWSRequest service url tr =
  (Normal (payload (service url nws_headers)),
   tr ++ Fetch url nws_headers
      :: diagnostic "Error making NWS request:" (service url nws_headers)).
Proof.
  unfold makeNWSRequest, try_catch, fetch, json. step_io. fold nws_headers.
  destruct (service url nws_headers) as [|[o st b]]; simpl.
  - unfold throw. step_io. by rewrite <- app_assoc.
  - destruct o; simpl.
    + destruct b; simpl; unfold throw; step_io; rewrite <- ?app_assoc; try done.
    + unfold throw. step_io. by rewrite <- app_assoc.
Qed.

Section Forecast.
Context {number : Type} (toFixed : number → nat → string)
        (toString : number → string).
Implicit Types (net : Network number) (latitude longitude : number).

Lemma forecast_url_None (pointsData : option PointsResponse) :
  forecast_url pointsData = None ↔
  pointsData = None
  ∨ pointsData?.points_properties = None
  ∨ pointsData?.points_properties?.forecast = None
  ∨ pointsData?.points_properties?.forecast = Some "".
Proof.
  unfold forecast_url.
  destruct pointsData as [[[[[u|]]|]]|]; simpl; try (split; [tauto | done]).
  unfold truthy. destruct (String.eqb_spec u ""); simpl; split; try done.
  - intros _. subst. tauto.
  - intros [|[|[|]]]; congruence.
Qed.

Lemma get_forecast_no_locator net latitude longitude tr :
  locator toFixed net latitude longitude = None →
  get_forecast toFixed toString net latitude longitude tr =
  (Normal {| content :=
     [text_block "Failed to get forecast URL. Location might be outside US."] |},
   tr ++ Fetch (pointsUrl toFixed latitude longitude) nws_headers
      :: diagnostic "Error making NWS request:"
           (points_reply toFixed net latitude longitude)).
Proof.
  intros Hloc. unfold get_forecast. step_io.
  rewrite makeNWSRequest_run. fold (pointsUrl toFixed latitude longitude).
  fold (points_reply toFixed net latitude longitude).
  unfold locator in Hloc. by rewrite Hloc.
Qed.

Lemma get_forecast_locator net latitude longitude url tr :
  locator toFixed net latitude longitude = Some url →
  get_forecast toFixed toString net latitude longitude tr =
  (Normal {| content :=
     [text_block
        (match periods_of net url with
         | [] => "No forecast periods available"
         | periods =>
             "Forecast for " +:+ toString latitude +:+ ", "
             +:+ toString longitude +:+ ":" +:+ LF +:+ LF
             +:+ join LF (map (format_period toString) periods)
         end)] |},
   (tr ++ Fetch (pointsUrl toFixed latitude longitude) nws_headers
       :: diagnostic "Error making NWS request:"
            (points_reply toFixed net latitude longitude))
   ++ Fetch url nws_headers
      :: diagnostic "Error making NWS request:" (periods_reply net url)).
Proof.
  intros Hloc. unfold get_forecast. step_io.
  rewrite makeNWSRequest_run. fold (pointsUrl toFixed latitude longitude).
  fold (points_reply toFixed net latitude longitude).
  unfold locator in Hloc. rewrite Hloc. step_io.
  rewrite makeNWSRequest_run. fold (periods_reply net url).
  fold (periods_of net url).
  destruct (periods_of net url); reflexivity.
Qed.

End Forecast.

Section Alerts.
Context {number : Type} (toUpperCase : string → string).
Implicit Types (net : Network number).

Lemma get_alerts_run net state tr :
  get_alerts toUpperCase net state tr =
  (Normal {| content :=
     [text_block
        (match payload (alerts_reply toUpperCase net state) with
         | None => "Failed to retrieve alerts data"
         | Some alertsData =>
             match default [] (features alertsData) with
             | [] => "No active alerts for " +:+ toUpperCase state
             | features =>
                 "Active alerts for " +:+ toUpperCase state +:+ ":" +:+ LF
                 +:+ LF +:+ join LF (map format_alert features)
             end
         end)] |},
   tr ++ Fetch (alertsUrl toUpperCase state) nws_headers
      :: diagnostic "Error making NWS request:" (alerts_reply toUpperCase net state)).
Proof.
  unfold get_alerts. step_io. rewrite makeNWSRequest_run.
  fold (alertsUrl toUpperCase state). fold (alerts_reply toUpperCase net state).
  destruct (payload (alerts_reply toUpperCase net state)) as [alertsData|]; [|done].
  destruct (default [] (features alertsData)); reflexivity.
Qed.
End Alerts.

Section Coordinates.
Context {number : Type} (encodeURIComponent : string → option string).
Implicit Types (net : Network number).

(** [getCoordinates] throws only where [encodeURIComponent] does, before
    any request; otherwise it performs one request and returns the first
    match, if there is one. *)
Lemma getCoordinates_run net city state tr :
  getCoordinates encodeURIComponent net city state tr =
  match encodeURIComponent city, encodeURIComponent state with
  | Some c, Some s =>
      (Normal (payload (search_reply net c s) ≫= head),
       tr ++ Fetch (searchUrl c s) nominatim_headers
          :: diagnostic "Error fetching coordinates:" (search_reply net c s))
  | _, _ => (Abrupt URIError, tr)
  end.
Proof.
  unfold getCoordinates.
  destruct (encodeURIComponent city) as [c|]; [|done].
  destruct (encodeURIComponent state) as [s|]; [|done].
  unfold try_catch, fetch, json. step_io.
  fold (searchUrl c s). fold nominatim_headers. fold (search_reply net c s).
  destruct (search_reply net c s) as [|[o st b]]; simpl.
  - unfold throw. step_io. by rewrite <- app_assoc.
  - destruct o; simpl.
    + destruct b as [| |[|first rest]]; simpl; unfold throw; step_io;
        rewrite <- ?app_assoc; done.
    + unfold throw. step_io. by rewrite <- app_assoc.
Qed.

Lemma get_coordinates_run net city state tr :
  get_coordinates encodeURIComponent net city state tr =
  match encodeURIComponent city, encodeURIComponent state with
  | Some c, Some s =>
      (Normal {| content :=
         [text_block
            (match payload (search_reply net c s) ≫= head with
             | None => not_found_text city state
             | Some coords =>
                 "Location: " +:+ display_name coords +:+ LF
                 +:+ "Latitude: " +:+ lat coords +:+ LF
                 +:+ "Longitude: " +:+ lon coords
             end)] |},
       tr ++ Fetch (searchUrl c s) nominatim_headers
          :: diagnostic "Error fetching coordinates:" (search_reply net c s))
  | _, _ => (Abrupt URIError, tr)
  end.
Proof.
  unfold get_coordinates. step_io. rewrite getCoordinates_run.
  destruct (encodeURIComponent city) as [c|]; [|done].
  destruct (encodeURIComponent state) as [s|]; [|done].
  destruct (payload (search_reply net c s) ≫= head); reflexivity.
Qed.
End Coordinates.

(** *** Letter case of state codes *)

Lemma nat_of_ascii_inj a b : nat_of_ascii a = nat_of_ascii b → a = b.
Proof.
  intros E. rewrite <- (ascii_nat_embedding a), <- (ascii_nat_embedding b).
  by rewrite E.
Qed.

Lemma nat_of_upper c :
  nat_of_ascii (upper c) =
  if is_lower c then nat_of_ascii c - 32 else nat_of_ascii c.
Proof.
  unfold upper. destruct (is_lower c); [|done].
  pose proof (nat_ascii_bounded c). apply nat_ascii_embedding. lia.
Qed.

Ltac case_bounds :=
  repeat match goal with
    | H : context [?n <=? ?m] |- _ =>
        destruct (Nat.leb_spec n m); cbn [andb orb] in H
    | H : context [?n =? ?m] |- _ =>
        destruct (Nat.eqb_spec n m); cbn [andb orb] in H
    | |- context [?n <=? ?m] => destruct (Nat.leb_spec n m); cbn [andb orb]
    end.

Lemma same_letter_upper a b :
  same_letter a b = true → upper a = upper b ∧ is_upper (upper a) = true.
Proof.
  unfold same_letter, is_letter. intros H. split.
  - apply nat_of_ascii_inj. rewrite !nat_of_upper.
    unfold is_lower, is_upper in *. case_bounds; cbn [andb orb] in *;
      try discriminate H; lia.
  - unfold is_upper at 1. rewrite !nat_of_upper.
    unfold is_lower, is_upper in *. case_bounds; cbn [andb orb] in *;
      try discriminate H; try lia; reflexivity.
Qed.

Lemma same_letters_upper s1 s2 :
  same_letters s1 s2 = true →
  toUpperCaseAscii s1 = toUpperCaseAscii s2
  ∧ all_upper (toUpperCaseAscii s1) = true.
Proof.
  revert s2. induction s1 as [|a s1 IH]; intros [|b s2]; simpl; try done.
  intros [Hab Hrest]%andb_prop.
  destruct (same_letter_upper a b Hab) as [-> ->].
  destruct (IH s2 Hrest) as [-> ->]. done.
Qed.

Lemma same_letters_all_letters s1 s2 :
  same_letters s1 s2 = true → all_letters s1 = true ∧ all_letters s2 = true.
Proof.
  revert s2. induction s1 as [|a s1 IH]; intros [|b s2]; simpl; try done.
  intros [Hab Hrest]%andb_prop. destruct (IH s2 Hrest) as [-> ->].
  unfold same_letter in Hab.
  apply andb_prop in Hab as [[-> ->]%andb_prop _]. done.
Qed.

Lemma same_letter_upper_self a : is_letter a = true → same_letter a (upper a) = true.
Proof.
  unfold same_letter, is_letter. intros H. unfold is_upper at 2, is_lower at 2.
  rewrite !nat_of_upper. unfold is_lower, is_upper in *.
  case_bounds; cbn [andb orb] in *; try discriminate H; try lia; try reflexivity.
  all: repeat match goal with
         | |- context [?n =? ?m] => destruct (Nat.eqb_spec n m); cbn [andb orb]
         end; try reflexivity; lia.
Qed.

Lemma all_letters_upper s :
  all_letters s = true → same_letters s (toUpperCaseAscii s) = true.
Proof.
  induction s as [|a s IH]; simpl; [done|].
  intros [Ha Hs]%andb_prop. by rewrite (same_letter_upper_self a Ha), (IH Hs).
Qed.

Lemma append_assoc (a b c : string) : (a +:+ b) +:+ c = a +:+ b +:+ c.
Proof.
  induction a as [|x a IH]; [done|].
  change (String x ((a +:+ b) +:+ c) = String x (a +:+ b +:+ c)).
  by rewrite IH.
Qed.

(** *** The forecast tool *)

(** C5.  When the points lookup fails or its body carries no forecast
    locator ([locator] is [None]: nothing delivered, no [properties], no
    [forecast], or an empty one, see [forecast_url_None]), [get_forecast]
    returns one text block saying that the location might be outside the
    US, and the only request it performed is the points lookup: no request
    for periods follows. *)
Theorem get_forecast_outside_coverage
  {number : Type} (toFixed : number → nat → string) (toString : number → string)
  (net : Network number) (latitude longitude : number) :
  locator toFixed net latitude longitude = None →
  ∃ t,
    (run (get_forecast toFixed toString net latitude longitude)).1
      = Normal {| content := [{| type := "text"; text := t |}] |}
    ∧ includes t "Location might be outside US"
    ∧ requests (run (get_forecast toFixed toString net latitude longitude)).2
      = [pointsUrl toFixed latitude longitude].
Proof.
  intros Hloc. unfold run.
  rewrite (get_forecast_no_locator toFixed toString net latitude longitude [] Hloc).
  eexists. split; [reflexivity|]. split.
  - by exists "Failed to get forecast URL. ", ".".
  - cbn [snd]. by rewrite app_nil_l, requests_fetch, requests_diagnostic.
Qed.

Lemma get_forecast_outside_coverage_witness :
  ∃ t,
    (run (get_forecast ServerDemo.toFixed ServerDemo.toString ServerDemo.offline 38 122)).1
      = Normal {| content := [{| type := "text"; text := t |}] |}
    ∧ includes t "Location might be outside US"
    ∧ requests (run (get_forecast ServerDemo.toFixed ServerDemo.toString ServerDemo.offline 38 122)).2
      = [pointsUrl ServerDemo.toFixed 38 122].
Proof.
  apply (get_forecast_outside_coverage ServerDemo.toFixed ServerDemo.toString ServerDemo.offline 38 122).
  reflexivity.
Defined.

(** C9.  When the points lookup yields a locator and the request for the
    periods fails ([makeNWSRequest] returns [null]), [get_forecast] answers
    "No forecast periods available", the very result it gives in a world
    where that request succeeds with zero periods. *)
Theorem get_forecast_failure_reads_as_empty
  {number : Type} (toFixed : number → nat → string) (toString : number → string)
  (failing empty : Network number) (latitude longitude : number) (url : string) :
  locator toFixed failing latitude longitude = Some url →
  locator toFixed empty latitude longitude = Some url →
  payload (periods_reply failing url) = None →
  (∃ forecastData,
     payload (periods_reply empty url) = Some forecastData
     ∧ default [] ((Some forecastData)?.forecast_properties?.periods) = []) →
  (run (get_forecast toFixed toString failing latitude longitude)).1
    = Normal {| content :=
        [{| type := "text"; text := "No forecast periods available" |}] |}
  ∧ (run (get_forecast toFixed toString empty latitude longitude)).1
    = (run (get_forecast toFixed toString failing latitude longitude)).1.
Proof.
  intros Hf He Hfail (forecastData & Hdata & Hnone). unfold run.
  rewrite (get_forecast_locator toFixed toString failing latitude longitude url [] Hf).
  rewrite (get_forecast_locator toFixed toString empty latitude longitude url [] He).
  unfold periods_of. rewrite Hfail, Hdata, Hnone. done.
Qed.

Lemma get_forecast_failure_reads_as_empty_witness :
  (run (get_forecast ServerDemo.toFixed ServerDemo.toString ServerDemo.stalled 38 122)).1
    = Normal {| content :=
        [{| type := "text"; text := "No forecast periods available" |}] |}
  ∧ (run (get_forecast ServerDemo.toFixed ServerDemo.toString ServerDemo.quiet 38 122)).1
    = (run (get_forecast ServerDemo.toFixed ServerDemo.toString ServerDemo.stalled 38 122)).1.
Proof.
  apply (get_forecast_failure_reads_as_empty ServerDemo.toFixed ServerDemo.toString
           ServerDemo.stalled ServerDemo.quiet 38 122 ServerDemo.gridpoint).
  - reflexivity.
  - reflexivity.
  - reflexivity.
  - eexists. split; reflexivity.
Defined.

(** *** The alerts tool *)

(** C6.  For every state code, the text [get_alerts] returns when the
    request fails differs from the text it returns when the request
    succeeds with zero features. *)
Theorem get_alerts_failure_differs_from_empty
  {number : Type} (toUpperCase : string → string)
  (failing empty : Network number) (state : string) :
  payload (alerts_reply toUpperCase failing state) = None →
  (∃ alertsData,
     payload (alerts_reply toUpperCase empty state) = Some alertsData
     ∧ default [] (features alertsData) = []) →
  ∃ t_failed t_none,
    (run (get_alerts toUpperCase failing state)).1
      = Normal {| content := [{| type := "text"; text := t_failed |}] |}
    ∧ (run (get_alerts toUpperCase empty state)).1
      = Normal {| content := [{| type := "text"; text := t_none |}] |}
    ∧ t_failed ≠ t_none.
Proof.
  intros Hfail (alertsData & Hdata & Hnone). unfold run.
  rewrite !get_alerts_run, Hfail, Hdata, Hnone.
  do 2 eexists. split; [reflexivity|]. split; [reflexivity|]. discriminate.
Qed.

Lemma get_alerts_failure_differs_from_empty_witness :
  ∃ t_failed t_none,
    (run (get_alerts toUpperCaseAscii ServerDemo.offline "CA")).1
      = Normal {| content := [{| type := "text"; text := t_failed |}] |}
    ∧ (run (get_alerts toUpperCaseAscii ServerDemo.quiet "CA")).1
      = Normal {| content := [{| type := "text"; text := t_none |}] |}
    ∧ t_failed ≠ t_none.
Proof.
  apply (get_alerts_failure_differs_from_empty toUpperCaseAscii
           ServerDemo.offline ServerDemo.quiet "CA").
  - reflexivity.
  - eexists. split; reflexivity.
Defined.

(** C7.  [get_alerts] upper-cases the state code before it builds the
    query.  For every argument the single request goes to [/alerts?area=]
    followed by the argument's upper-casing by the runtime, so arguments with
    the same upper-casing are queried, and answered, alike.  Where the
    runtime's [toUpperCase] upper-cases ASCII letters as ECMAScript says, two
    codes that spell the same ASCII letters in any casing (the two-letter
    state codes among them) get the same queried code, and that code is the
    letters of the argument in upper case. *)
Theorem get_alerts_ignores_case
  {number : Type} (toUpperCase : string → string) (net : Network number) :
  (∀ state,
     requests (run (get_alerts toUpperCase net state)).2
     = [NWS_API_BASE +:+ "/alerts?area=" +:+ toUpperCase state])
  ∧ (∀ s1 s2,
       toUpperCase s1 = toUpperCase s2 →
       run (get_alerts toUpperCase net s2) = run (get_alerts toUpperCase net s1))
  ∧ ((∀ s, all_letters s = true → toUpperCase s = toUpperCaseAscii s) →
     ∀ s1 s2,
       same_letters s1 s2 = true →
       same_letters s1 (toUpperCase s1) = true
       ∧ all_upper (toUpperCase s1) = true
       ∧ toUpperCase s2 = toUpperCase s1
       ∧ run (get_alerts toUpperCase net s2) = run (get_alerts toUpperCase net s1)).
Proof.
  assert (Hrun : ∀ s1 s2, toUpperCase s1 = toUpperCase s2 →
            run (get_alerts toUpperCase net s2) = run (get_alerts toUpperCase net s1)).
  { intros s1 s2 Hup. unfold run. rewrite !get_alerts_run.
    unfold alerts_reply, alertsUrl. by rewrite Hup. }
  split; [|split; [exact Hrun|]].
  - intros state. unfold run. rewrite get_alerts_run. cbn [snd].
    by rewrite app_nil_l, requests_fetch, requests_diagnostic.
  - intros Hascii s1 s2 Hsame.
    destruct (same_letters_all_letters s1 s2 Hsame) as [H1 H2].
    destruct (same_letters_upper s1 s2 Hsame) as [Hup Hall].
    assert (Heq : toUpperCase s2 = toUpperCase s1)
      by (by rewrite (Hascii s1 H1), (Hascii s2 H2)).
    split; [|split; [|split; [exact Heq | by apply Hrun]]].
    + rewrite (Hascii s1 H1). by apply all_letters_upper.
    + by rewrite (Hascii s1 H1).
Qed.

Lemma get_alerts_ignores_case_witness :
  requests (run (get_alerts toUpperCaseAscii ServerDemo.quiet "ca")).2
    = ["https://api.weather.gov/alerts?area=CA"]
  ∧ requests (run (get_alerts toUpperCaseAscii ServerDemo.quiet "CA")).2
    = ["https://api.weather.gov/alerts?area=CA"]
  ∧ same_letters "ca" "CA" = true
  ∧ all_upper "CA" = true
  ∧ run (get_alerts toUpperCaseAscii ServerDemo.quiet "CA")
    = run (get_alerts toUpperCaseAscii ServerDemo.quiet "ca").
Proof.
  destruct (get_alerts_ignores_case toUpperCaseAscii ServerDemo.quiet)
    as (Hrequest & _ & Hcase).
  destruct (Hcase (λ s _, eq_refl) "ca" "CA" eq_refl) as (Hsame & Hupper & _ & Hrun).
  split; [exact (Hrequest "ca")|]. split; [exact (Hrequest "CA")|].
  split; [exact Hsame|]. split; [exact Hupper | exact Hrun].
Defined.

(** *** The geocoding tool *)

(** C8.  When the lookup is performed ([encodeURIComponent] accepts city
    and state) and delivers nothing or an empty array, [get_coordinates]
    completes normally with one text block whose text is
    [Could not find coordinates for <city>, <state>.]: it names the city
    and the state, and is made of them and fixed words only, so it carries
    no latitude or longitude from any reply. *)
Theorem get_coordinates_not_found
  {number : Type} (encodeURIComponent : string → option string)
  (net : Network number) (city state c s : string) :
  encodeURIComponent city = Some c →
  encodeURIComponent state = Some s →
  payload (search_reply net c s) = None ∨ payload (search_reply net c s) = Some [] →
  ∃ t,
    (run (get_coordinates encodeURIComponent net city state)).1
      = Normal {| content := [{| type := "text"; text := t |}] |}
    ∧ t = "Could not find coordinates for " +:+ city +:+ ", " +:+ state +:+ "."
    ∧ includes t city
    ∧ includes t state.
Proof.
  intros Hc Hs Hnone. unfold run. rewrite get_coordinates_run, Hc, Hs.
  assert (payload (search_reply net c s) ≫= head = None) as ->
    by (destruct Hnone as [-> | ->]; reflexivity).
  eexists. split; [reflexivity|]. split; [reflexivity|]. split.
  - by exists "Could not find coordinates for ", (", " +:+ state +:+ ".").
  - exists ("Could not find coordinates for " +:+ city +:+ ", "), ".".
    unfold not_found_text. by rewrite !append_assoc.
Qed.

Lemma get_coordinates_not_found_witness :
  ∃ t,
    (run (get_coordinates ServerDemo.encodeURIComponent ServerDemo.quiet "Atlantis" "ZZ")).1
      = Normal {| content := [{| type := "text"; text := t |}] |}
    ∧ t = "Could not find coordinates for Atlantis, ZZ."
    ∧ includes t "Atlantis"
    ∧ includes t "ZZ".
Proof.
  apply (get_coordinates_not_found ServerDemo.encodeURIComponent ServerDemo.quiet
           "Atlantis" "ZZ" "Atlantis" "ZZ").
  - reflexivity.
  - reflexivity.
  - right. reflexivity.
Defined.

(** *** All three tools *)

(** C10.  Every result of the three tools has exactly one content block,
    tagged [text].  [get_alerts] and [get_forecast] always complete with
    such a result; [get_coordinates] does too, unless [encodeURIComponent]
    rejects the city or the state, in which case it throws before any
    request and produces no result. *)
Theorem tools_return_single_text_block
  {number : Type} (toFixed : number → nat → string) (toString : number → string)
  (encodeURIComponent : string → option string) (toUpperCase : string → string)
  (net : Network number) :
  (∀ city state tr,
     match (get_coordinates encodeURIComponent net city state tr).1 with
     | Normal r => ∃ t, content r = [{| type := "text"; text := t |}]
     | Abrupt e =>
         e = URIError
         ∧ (encodeURIComponent city = None ∨ encodeURIComponent state = None)
     end)
  ∧ (∀ state tr, ∃ r t,
       (get_alerts toUpperCase net state tr).1 = Normal r
       ∧ content r = [{| type := "text"; text := t |}])
  ∧ (∀ latitude longitude tr, ∃ r t,
       (get_forecast toFixed toString net latitude longitude tr).1 = Normal r
       ∧ content r = [{| type := "text"; text := t |}]).
Proof.
  split; [|split].
  - intros city state tr. rewrite get_coordinates_run.
    destruct (encodeURIComponent city) as [c|]; [|simpl; tauto].
    destruct (encodeURIComponent state) as [s|]; [|simpl; tauto].
    simpl. by eexists.
  - intros state tr. rewrite get_alerts_run. by do 2 eexists.
  - intros latitude longitude tr.
    destruct (locator toFixed net latitude longitude) as [url|] eqn:Hloc.
    + rewrite (get_forecast_locator _ _ _ _ _ url tr Hloc). by do 2 eexists.
    + rewrite (get_forecast_no_locator _ _ _ _ _ tr Hloc). by do 2 eexists.
Qed.

End ServerFacts.

(** ** The client *)

Module ClientFacts.
Import Client ClientSpec.

Section Bridge.
Context {PropertySchema : Type}.

Lemma declarations_cons tool (tools : list (Tool PropertySchema)) :
  declarations (tool :: tools) =
  {| fd_name := name tool;
     fd_description := description tool;
     parameters :=
       {| schema_type := OBJECT;
          schema_properties := properties (inputSchema tool);
          schema_required := required (inputSchema tool) |} |}
  :: declarations tools.
Proof.
  unfold declarations, geminiTools. cbn [mbind list_bind functionDeclarations].
  rewrite !app_nil_r. reflexivity.
Qed.

(** C1.  The declarations are as many as the tools, and position by
    position each declaration has the name and the description of its
    tool; where the tool's required names are all keys of its properties,
    so are the declaration's. *)
Theorem declarations_mirror_tools (tools : list (Tool PropertySchema)) :
  length (declarations tools) = length tools
  ∧ Forall2 (λ tool d,
               fd_name d = name tool
               ∧ fd_description d = description tool
               ∧ (tool_invariant tool → declaration_invariant d))
            tools (declarations tools).
Proof.
  induction tools as [|tool tools [IHlen IHall]]; [by split|].
  rewrite declarations_cons. split; [simpl; by rewrite IHlen|].
  constructor; [|done]. by repeat split.
Qed.

(** C2.  Every tool given to the conversion gets a declaration, at its
    own position, whose top-level type is [OBJECT], whatever type tag the
    tool's schema carries or lacks; and the declarations are the same when
    the type tags of the tools are replaced by any others or removed: the
    source tag is never passed on. *)
Theorem declarations_typed_object (tools : list (Tool PropertySchema)) :
  Forall2 (λ tool d, fd_name d = name tool ∧ schema_type (parameters d) = OBJECT)
          tools (declarations tools)
  ∧ ∀ tag : Tool PropertySchema → option string,
      Forall2 (λ tool d, fd_name d = name tool ∧ schema_type (parameters d) = OBJECT)
              tools (declarations (map (λ tool, retag (tag tool) tool) tools))
      ∧ declarations (map (λ tool, retag (tag tool) tool) tools) = declarations tools.
Proof.
  assert (Hobject : Forall2 (λ tool d, fd_name d = name tool
                                       ∧ schema_type (parameters d) = OBJECT)
                      tools (declarations tools)).
  { induction tools as [|tool tools IH]; [constructor|].
    rewrite declarations_cons. by constructor. }
  assert (Htag : ∀ tag : Tool PropertySchema → option string,
            declarations (map (λ tool, retag (tag tool) tool) tools)
            = declarations tools).
  { intros tag. induction tools as [|tool tools IH]; [done|].
    cbn [map]. rewrite !declarations_cons. f_equal.
    apply IH. by inversion Hobject. }
  split; [exact Hobject|]. intros tag. split; [|apply Htag].
  by rewrite Htag.
Qed.

End Bridge.

Lemma Forall2_transfer {A B} (P : A → Prop) (Q : B → Prop) (R : A → B → Prop)
    (l : list A) (k : list B) :
  Forall2 (λ a b, R a b ∧ (P a → Q b)) l k → Forall P l → Forall Q k.
Proof.
  induction 1 as [|a b l k [_ Hab] _ IH]; intros HP; [constructor|].
  inversion HP; subst. constructor; auto.
Qed.

Lemma declarations_typed_object_witness :
  Forall2 (λ tool d, fd_name d = name tool ∧ schema_type (parameters d) = OBJECT)
          ClientDemo.weather_tools (declarations ClientDemo.weather_tools)
  ∧ (λ tool, type_tag (inputSchema tool)) <$> ClientDemo.weather_tools !! 0
    = Some (Some "object")
  ∧ (λ tool, type_tag (inputSchema tool)) <$> ClientDemo.weather_tools !! 2
    = Some None.
Proof.
  destruct (declarations_typed_object ClientDemo.weather_tools) as [Hobject _].
  split; [exact Hobject|]. split; reflexivity.
Defined.

Lemma declarations_mirror_tools_witness :
  length (declarations ClientDemo.weather_tools) = 3
  ∧ Forall declaration_invariant (declarations ClientDemo.weather_tools).
Proof.
  destruct (declarations_mirror_tools ClientDemo.weather_tools) as [Hlen Hall].
  split; [exact Hlen|].
  apply (Forall2_transfer tool_invariant declaration_invariant
           (λ tool d, fd_name d = name tool) ClientDemo.weather_tools).
  - eapply Forall2_impl; [exact Hall|]. simpl. tauto.
  - unfold tool_invariant, required_declared.
    repeat constructor; simpl; apply elem_of_dom; eexists; reflexivity.
Defined.

(** *** The agent loop *)

Section Loop.
Context {PropertySchema Args : Type}.
Implicit Types (peers : Peers PropertySchema Args) (tr : list (Event Args)).

Lemma sendMessage_run peers chat message tr :
  sendMessage peers chat message tr =
  (match generate peers (chat_tools chat) (history chat ++ [message]) with
   | Normal response =>
       Normal (response, {| chat_tools := chat_tools chat;
                            history := history chat ++ [message] |})
   | Abrupt e => Abrupt e
   end, tr ++ [SendMessage message]).
Proof.
  unfold sendMessage, await. step_io.
  destruct (generate peers (chat_tools chat) (history chat ++ [message])); done.
Qed.

(** Without a requested call, [runAgent] ends right after the first
    answer of the model, having printed the prompt only. *)
Lemma runAgent_no_call peers tools result :
  connect peers = Normal tt →
  listTools peers = Normal tools →
  generate peers (geminiTools tools) [Prompt prompt] = Normal result →
  requested result = None →
  run (runAgent peers) = (Normal tt, opening).
Proof.
  intros Hconnect Hlist Hgen Hcall. unfold run, runAgent, await. step_io.
  rewrite Hconnect, Hlist. step_io. rewrite sendMessage_run.
  cbn [startChat chat_tools history app]. rewrite Hgen.
  unfold requested in Hcall. rewrite Hcall. reflexivity.
Qed.

(** With a requested call, [runAgent] calls the transport for that very
    name, and goes on as the transport and the model answer. *)
Lemma runAgent_call peers tools result call :
  connect peers = Normal tt →
  listTools peers = Normal tools →
  generate peers (geminiTools tools) [Prompt prompt] = Normal result →
  requested result = Some call →
  run (runAgent peers) =
  match callTool peers (call_name call) (args call) with
  | Abrupt e => (Abrupt e, opening ++ calling call)
  | Normal toolResponse =>
      let reply := FunctionResponse (call_name call) (content toolResponse) in
      match generate peers (geminiTools tools) [Prompt prompt; reply] with
      | Abrupt e => (Abrupt e, opening ++ calling call ++ [SendMessage reply])
      | Normal finalResponse =>
          (Normal tt,
           opening ++ calling call
           ++ [SendMessage reply;
               ConsoleLog [PString "Agent:";
                           PString (response_text finalResponse)]])
      end
  end.
Proof.
  intros Hconnect Hlist Hgen Hcall. unfold run, runAgent, await. step_io.
  rewrite Hconnect, Hlist. step_io. rewrite sendMessage_run.
  cbn [startChat chat_tools history app]. rewrite Hgen.
  unfold requested in Hcall. rewrite Hcall. step_io.
  destruct (callTool peers (call_name call) (args call)) as [toolResponse|e];
    [|reflexivity].
  step_io. rewrite sendMessage_run. cbn [chat_tools history app].
  destruct (generate peers (geminiTools tools)
              [Prompt prompt;
               FunctionResponse (call_name call) (content toolResponse)]);
    reflexivity.
Qed.

(** C3, as the code has it.  Whenever the first response of the model
    requests a call, whether or not the requested name is among the
    discovered tools, the whole run is fixed by what the transport and the
    model answer: [runAgent] announces the call, issues [callTool] for the
    requested name with the requested arguments, and nothing else, the
    discovered names being consulted nowhere.  If the transport rejects the
    call, the run ends with that rejection; if it resolves, the result goes
    back to the model and the run ends normally with the model's answer
    printed, or with the model's rejection.  So the loop performs no lookup
    and has no unknown-tool failure of its own. *)
Theorem runAgent_calls_requested_tool peers tools result call :
  connect peers = Normal tt →
  listTools peers = Normal tools →
  generate peers (geminiTools tools) [Prompt prompt] = Normal result →
  requested result = Some call →
  run (runAgent peers)
  = match callTool peers (call_name call) (args call) with
    | Abrupt e =>
        (Abrupt e,
         [ Connect "node" ["./build/index.js"];
           ListTools;
           ConsoleLog [PString ("User: " +:+ prompt)];
           SendMessage (Prompt prompt);
           ConsoleLog [PString ("Agent wants to call: " +:+ call_name call
                                +:+ " with"); PArgs (args call)];
           CallTool (call_name call) (args call) ])
    | Normal toolResponse =>
        match generate peers (geminiTools tools)
                [Prompt prompt;
                 FunctionResponse (call_name call) (content toolResponse)] with
        | Abrupt e =>
            (Abrupt e,
             [ Connect "node" ["./build/index.js"];
               ListTools;
               ConsoleLog [PString ("User: " +:+ prompt)];
               SendMessage (Prompt prompt);
               ConsoleLog [PString ("Agent wants to call: " +:+ call_name call
                                    +:+ " with"); PArgs (args call)];
               CallTool (call_name call) (args call);
               SendMessage (FunctionResponse (call_name call) (content toolResponse)) ])
        | Normal finalResponse =>
            (Normal tt,
             [ Connect "node" ["./build/index.js"];
               ListTools;
               ConsoleLog [PString ("User: " +:+ prompt)];
               SendMessage (Prompt prompt);
               ConsoleLog [PString ("Agent wants to call: " +:+ call_name call
                                    +:+ " with"); PArgs (args call)];
               CallTool (call_name call) (args call);
               SendMessage (FunctionResponse (call_name call) (content toolResponse));
               ConsoleLog [PString "Agent:"; PString (response_text finalResponse)] ])
        end
    end
  ∧ tool_calls (run (runAgent peers)).2 = [(call_name call, args call)]
  ∧ ∀ e, callTool peers (call_name call) (args call) = Abrupt e →
         (run (runAgent peers)).1 = Abrupt e.
Proof.
  intros Hconnect Hlist Hgen Hcall.
  rewrite (runAgent_call peers tools result call Hconnect Hlist Hgen Hcall).
  destruct (callTool peers (call_name call) (args call)) as [toolResponse|e].
  - cbv zeta.
    destruct (generate peers (geminiTools tools)
                [Prompt prompt;
                 FunctionResponse (call_name call) (content toolResponse)]);
      (split; [reflexivity|]; split; [reflexivity|discriminate]).
  - split; [reflexivity|]. split; [reflexivity|]. by intros ? [= <-].
Qed.

End Loop.

Lemma runAgent_calls_requested_tool_witness :
  ("get_weather" ∉ map name ClientDemo.weather_tools)
  ∧ run (runAgent ClientDemoMore.obliging)
    = (Normal tt,
       [ Connect "node" ["./build/index.js"];
         ListTools;
         ConsoleLog [PString "User: Is it going to rain in Livermore, CA?"];
         SendMessage (Prompt "Is it going to rain in Livermore, CA?");
         ConsoleLog [PString "Agent wants to call: get_weather with";
                     PArgs [("city", "Livermore")]];
         CallTool "get_weather" [("city", "Livermore")];
         SendMessage (FunctionResponse "get_weather"
                        [text_block "Tool get_weather not found"]);
         ConsoleLog [PString "Agent:"; PString "I cannot look that up."] ])
  ∧ tool_calls (run (runAgent ClientDemoMore.obliging)).2
    = [("get_weather", [("city", "Livermore")])]
  ∧ ∀ e, callTool ClientDemoMore.obliging "get_weather" [("city", "Livermore")]
         = Abrupt e →
         (run (runAgent ClientDemoMore.obliging)).1 = Abrupt e.
Proof.
  split.
  - intros Hin. apply list_elem_of_In in Hin. simpl in Hin.
    destruct Hin as [H|[H|[H|[]]]]; discriminate H.
  - apply (runAgent_calls_requested_tool ClientDemoMore.obliging
             ClientDemo.weather_tools
             {| response_text := "";
                functionCalls :=
                  Some [{| call_name := "get_weather";
                           args := [("city", "Livermore")] |}] |}
             {| call_name := "get_weather"; args := [("city", "Livermore")] |});
      reflexivity.
Defined.

(** C3 as the specification words it does not hold: the discovered tools are the three
    of the weather provider, the model requests [get_weather], which is
    none of them, and [runAgent] still calls the transport for it; the run
    ends with the transport's own rejection. *)
Lemma runAgent_unknown_tool_reaches_transport :
  listTools ClientDemo.confused = Normal ClientDemo.weather_tools
  ∧ (call_name <$>
       match generate ClientDemo.confused (geminiTools ClientDemo.weather_tools)
               [Prompt prompt] with
       | Normal result => requested result
       | Abrupt _ => None
       end) = Some "get_weather"
  ∧ ("get_weather" ∉ map name ClientDemo.weather_tools)
  ∧ tool_calls (run (runAgent ClientDemo.confused)).2
    = [("get_weather", [("city", "Livermore")])]
  ∧ (run (runAgent ClientDemo.confused)).1
    = Abrupt (Rejection "Tool get_weather not found").
Proof.
  split; [reflexivity|]. split; [reflexivity|]. split; [|split; reflexivity].
  intros Hin. apply list_elem_of_In in Hin. simpl in Hin.
  destruct Hin as [H|[H|[H|[]]]]; discriminate H.
Qed.

(** C4, on the code.  The model answers the prompt in plain text, without
    a call.  [runAgent] ends right after that response and has printed the
    prompt only: the model's text is not among its effects.  On the other
    path, after a tool call, the model's final text is printed. *)
Theorem runAgent_drops_plain_answer :
  generate ClientDemo.chatty (geminiTools ClientDemo.weather_tools) [Prompt prompt]
    = Normal {| response_text := "No rain is expected in Livermore today.";
                functionCalls := None |}
  ∧ run (runAgent ClientDemo.chatty)
    = (Normal tt,
       [ Connect "node" ["./build/index.js"];
         ListTools;
         ConsoleLog [PString "User: Is it going to rain in Livermore, CA?"];
         SendMessage (Prompt "Is it going to rain in Livermore, CA?") ])
  ∧ answers (run (runAgent ClientDemo.chatty)).2 = []
  ∧ answers (run (runAgent ClientDemo.helpful)).2 = ["I could not check the alerts."].
Proof.
  split; [reflexivity|].
  rewrite (runAgent_no_call ClientDemo.chatty ClientDemo.weather_tools
             {| response_text := "No rain is expected in Livermore today.";
                functionCalls := None |});
    try reflexivity.
  by repeat split.
Qed.

End ClientFacts.

(** * Further properties of the tool provider *)

Module ServerExtra.
Import Server ServerSpec ServerSpecMore ServerFacts.


Lemma payload_diagnostic {T} label (reply : FetchResult T) v :
  payload reply = Some v → diagnostic label reply = [].
Proof.
  destruct reply as [|[o st b]]; simpl; [done|].
  destruct o; [|done]. by destruct b.
Qed.

Lemma append_empty_r (s : string) : s +:+ "" = s.
Proof.
  induction s as [|x s IH]; [done|].
  change (String x (s +:+ "") = String x s). by rewrite IH.
Qed.

(** *** The two helpers *)

(** X1.  [makeNWSRequest] never throws and performs exactly one request, to
    the given URL with the [User-Agent] and [Accept] headers.  It returns the
    decoded body of a successful response, and [null] in every other case: no
    response, a status that is not ok (whatever the body holds), a malformed
    body, a body that is JSON [null].  Each failure is printed once; a
    [null] body is not. *)
Theorem makeNWSRequest_outcome {T} (service : Service T) (url : string)
    (tr : list Event) :
  makeNWSRequest service url tr =
  let headers :=
    [("User-Agent", "weather-app/1.0"); ("Accept", "application/geo+json")] in
  let failed error :=
    (Normal None,
     tr ++ [Fetch url headers; ConsoleError "Error making NWS request:" error]) in
  match service url headers with
  | NoResponse => failed FetchFailed
  | Responded r =>
      if ok r then
        match body r with
        | Malformed => failed SyntaxError
        | JsonNull => (Normal None, tr ++ [Fetch url headers])
        | Json v => (Normal (Some v), tr ++ [Fetch url headers])
        end
      else failed (HttpError (status r))
  end.
Proof.
  rewrite makeNWSRequest_run. cbv zeta. fold USER_AGENT. fold nws_headers.
  destruct (service url nws_headers) as [|[o st b]]; simpl; [done|].
  destruct o; [|done]. by destruct b.
Qed.

Section Coordinates.
Context {number : Type} (encodeURIComponent : string → option string).
Implicit Types (net : Network number).

(** X2.  When [encodeURIComponent] rejects the city or the state,
    [getCoordinates] throws before it sends anything, outside its own
    [try], and [get_coordinates] lets the error through: the tool produces
    no result and the trace is left as it was. *)
Theorem get_coordinates_uri_error net (city state : string) (tr : list Event) :
  encodeURIComponent city = None ∨ encodeURIComponent state = None →
  getCoordinates encodeURIComponent net city state tr = (Abrupt URIError, tr)
  ∧ get_coordinates encodeURIComponent net city state tr = (Abrupt URIError, tr).
Proof.
  intros Hnone. rewrite get_coordinates_run, getCoordinates_run.
  destruct (encodeURIComponent city), (encodeURIComponent state);
    destruct Hnone; done.
Qed.

(** X3.  When the lookup delivers one match or more, [get_coordinates]
    reports the first one and ignores the others: its text gives the display
    name, the latitude and the longitude of the first match, after a single
    request that carries the [User-Agent] header only, and with nothing
    printed. *)
Theorem get_coordinates_first_match net (city state c s : string)
    (first : GeocodingResult) (others : list GeocodingResult) :
  encodeURIComponent city = Some c →
  encodeURIComponent state = Some s →
  payload (nominatim net (searchUrl c s) [("User-Agent", USER_AGENT)])
    = Some (first :: others) →
  ∃ t,
    run (get_coordinates encodeURIComponent net city state)
      = (Normal {| content := [{| type := "text"; text := t |}] |},
         [Fetch (searchUrl c s) [("User-Agent", USER_AGENT)]])
    ∧ t = "Location: " +:+ display_name first +:+ LF
          +:+ "Latitude: " +:+ lat first +:+ LF
          +:+ "Longitude: " +:+ lon first
    ∧ includes t (lat first)
    ∧ includes t (lon first).
Proof.
  intros Hc Hs Hfound. fold nominatim_headers in *.
  fold (search_reply net c s) in Hfound.
  unfold run. rewrite get_coordinates_run, Hc, Hs, Hfound.
  rewrite (payload_diagnostic _ _ _ Hfound). cbn [mbind option_bind head].
  eexists. split; [reflexivity|]. split; [reflexivity|]. split.
  - exists ("Location: " +:+ display_name first +:+ LF +:+ "Latitude: "),
      (LF +:+ "Longitude: " +:+ lon first).
    by rewrite !append_assoc.
  - exists ("Location: " +:+ display_name first +:+ LF +:+ "Latitude: "
            +:+ lat first +:+ LF +:+ "Longitude: "), "".
    rewrite !append_assoc. by rewrite append_empty_r.
Qed.

End Coordinates.

Lemma get_coordinates_uri_error_witness :
  (ServerDemoMore.strict_encodeURIComponent ServerDemoMore.evreux
     = Some "%C3%89vreux")
  ∧ getCoordinates ServerDemoMore.strict_encodeURIComponent ServerDemo.quiet
      ServerDemoMore.lone_surrogate "FR" []
    = (Abrupt URIError, [])
  ∧ get_coordinates ServerDemoMore.strict_encodeURIComponent ServerDemo.quiet
      ServerDemoMore.lone_surrogate "FR" []
    = (Abrupt URIError, []).
Proof.
  split; [reflexivity|].
  apply (get_coordinates_uri_error ServerDemoMore.strict_encodeURIComponent
           ServerDemo.quiet ServerDemoMore.lone_surrogate "FR" []).
  left. reflexivity.
Defined.

Lemma get_coordinates_first_match_witness :
  ∃ t,
    run (get_coordinates ServerDemo.encodeURIComponent ServerDemoMore.stormy
           "Livermore" "CA")
      = (Normal {| content := [{| type := "text"; text := t |}] |},
         [Fetch (searchUrl "Livermore" "CA") [("User-Agent", USER_AGENT)]])
    ∧ t = "Location: " +:+ display_name ServerDemoMore.livermore +:+ LF
          +:+ "Latitude: " +:+ lat ServerDemoMore.livermore +:+ LF
          +:+ "Longitude: " +:+ lon ServerDemoMore.livermore
    ∧ includes t (lat ServerDemoMore.livermore)
    ∧ includes t (lon ServerDemoMore.livermore).
Proof.
  apply (get_coordinates_first_match ServerDemo.encodeURIComponent
           ServerDemoMore.stormy "Livermore" "CA" "Livermore" "CA"
           ServerDemoMore.livermore [ServerDemoMore.livermore_falls]);
    reflexivity.
Defined.

(** *** Text that occurs in text *)

Lemma includes_prefix (p s x : string) : includes s x → includes (p +:+ s) x.
Proof.
  intros (pre & post & ->). exists (p +:+ pre), post. by rewrite append_assoc.
Qed.

Lemma join_cons (sep x y : string) (l : list string) :
  join sep (x :: y :: l) = x +:+ sep +:+ join sep (y :: l).
Proof. reflexivity. Qed.

Lemma includes_join (sep x : string) (l : list string) :
  x ∈ l → includes (join sep l) x.
Proof.
  induction l as [|a [|b l] IH]; intros Hin.
  - by apply elem_of_nil in Hin.
  - apply list_elem_of_singleton in Hin as ->. exists "", "".
    by rewrite append_empty_r.
  - rewrite join_cons. apply elem_of_cons in Hin as [->|Hin].
    + by exists "", (sep +:+ join sep (b :: l)).
    + apply includes_prefix, includes_prefix. by apply IH.
Qed.

Lemma map_through {A B C} (f : A → C) (g : A → B) (h : B → C) (l1 l2 : list A) :
  (∀ a, f a = h (g a)) → map g l1 = map g l2 → map f l1 = map f l2.
Proof.
  intros Hf Hg.
  rewrite (map_ext f (λ a, h (g a)) Hf l1), (map_ext f (λ a, h (g a)) Hf l2).
  rewrite <- !(map_map g h). by rewrite Hg.
Qed.

(** *** The alerts tool *)

Section Alerts.
Context {number : Type} (toUpperCase : string → string).
Implicit Types (net : Network number).

(** X4.  When the request delivers one feature or more, [get_alerts]
    answers [Active alerts for <STATE>:] with the upper-case code, followed
    by the block of every feature: each block is in the text, with the word
    [undefined] where the feature lacks the event, the severity or the
    headline. *)
Theorem get_alerts_lists_every_alert net (state : string)
    (alertsData : AlertsResponse) (first : AlertFeature) (others : list AlertFeature) :
  payload (alerts_reply toUpperCase net state) = Some alertsData →
  features alertsData = Some (first :: others) →
  ∃ t blocks,
    (run (get_alerts toUpperCase net state)).1
      = Normal {| content := [{| type := "text"; text := t |}] |}
    ∧ t = "Active alerts for " +:+ toUpperCase state +:+ ":" +:+ LF +:+ LF +:+ blocks
    ∧ ∀ f, f ∈ first :: others →
        includes blocks
          ("Event: " +:+ default "undefined" (event (alert_properties f)) +:+ LF
           +:+ "Severity: " +:+ default "undefined" (severity (alert_properties f))
           +:+ LF
           +:+ "Headline: " +:+ default "undefined" (headline (alert_properties f))
           +:+ LF +:+ "---").
Proof.
  intros Hdata Hfeatures. unfold run. rewrite get_alerts_run, Hdata, Hfeatures.
  do 2 eexists. split; [reflexivity|]. split; [reflexivity|].
  intros f Hf. apply includes_join.
  change (format_alert f ∈ map format_alert (first :: others)).
  by apply list_elem_of_fmap_2.
Qed.

(** X5.  The text of [get_alerts] tells the three outcomes apart.  It is
    [Failed to retrieve alerts data] exactly when the request delivered
    nothing, and [No active alerts for <STATE>] exactly when it delivered a
    body whose [features] are missing or empty; a missing [features] key
    reads as no alerts. *)
Theorem get_alerts_text_tells_outcome net (state : string) :
  ((run (get_alerts toUpperCase net state)).1
     = Normal {| content :=
         [{| type := "text"; text := "Failed to retrieve alerts data" |}] |}
   ↔ payload (alerts_reply toUpperCase net state) = None)
  ∧ ((run (get_alerts toUpperCase net state)).1
       = Normal {| content :=
           [{| type := "text";
               text := "No active alerts for " +:+ toUpperCase state |}] |}
     ↔ ∃ alertsData,
         payload (alerts_reply toUpperCase net state) = Some alertsData
         ∧ (features alertsData = None ∨ features alertsData = Some [])).
Proof.
  unfold run. rewrite get_alerts_run.
  destruct (payload (alerts_reply toUpperCase net state)) as [[[[|f fs]|]]|];
    cbn [default features fst]; split; split.
  all: first
    [ by (intros H; cbv in H; discriminate H)
    | by (intros H; discriminate H)
    | by (intros (d & [= <-] & [H|H]); discriminate H)
    | by (intros (d & H & _); discriminate H)
    | by (intros _; reflexivity)
    | by (intros _; eexists; split; [reflexivity|]; left)
    | by (intros _; eexists; split; [reflexivity|]; right) ].
Qed.

(** X6.  [get_alerts] prints the event, the severity and the headline of
    a feature and nothing else of it: two replies whose features agree on
    these three fields, in order, give the same result, whatever their area
    description and status. *)
Theorem get_alerts_ignores_unshown_fields
    net1 net2 (state : string) (data1 data2 : AlertsResponse) :
  payload (alerts_reply toUpperCase net1 state) = Some data1 →
  payload (alerts_reply toUpperCase net2 state) = Some data2 →
  map shown_alert (default [] (features data1))
    = map shown_alert (default [] (features data2)) →
  (run (get_alerts toUpperCase net1 state)).1
  = (run (get_alerts toUpperCase net2 state)).1.
Proof.
  intros H1 H2 Hshown. unfold run. rewrite !get_alerts_run, H1, H2.
  assert (Hblocks : map format_alert (default [] (features data1))
                    = map format_alert (default [] (features data2))).
  { apply (map_through format_alert shown_alert
             (λ '(e, sv, h),
                "Event: " +:+ interpolate e +:+ LF +:+ "Severity: "
                +:+ interpolate sv +:+ LF +:+ "Headline: " +:+ interpolate h
                +:+ LF +:+ "---")); [reflexivity | exact Hshown]. }
  destruct (default [] (features data1)) as [|f1 l1],
    (default [] (features data2)) as [|f2 l2]; try discriminate Hshown.
  - reflexivity.
  - cbn [fst]. by rewrite Hblocks.
Qed.

End Alerts.

Lemma get_alerts_lists_every_alert_witness :
  ∃ t blocks,
    (run (get_alerts toUpperCaseAscii ServerDemoMore.stormy "ca")).1
      = Normal {| content := [{| type := "text"; text := t |}] |}
    ∧ t = "Active alerts for " +:+ toUpperCaseAscii "ca" +:+ ":" +:+ LF +:+ LF
          +:+ blocks
    ∧ ∀ f, f ∈ [ServerDemoMore.flood; ServerDemoMore.wind] →
        includes blocks
          ("Event: " +:+ default "undefined" (event (alert_properties f)) +:+ LF
           +:+ "Severity: " +:+ default "undefined" (severity (alert_properties f))
           +:+ LF
           +:+ "Headline: " +:+ default "undefined" (headline (alert_properties f))
           +:+ LF +:+ "---").
Proof.
  apply (get_alerts_lists_every_alert toUpperCaseAscii ServerDemoMore.stormy "ca"
           {| features := Some [ServerDemoMore.flood; ServerDemoMore.wind] |}
           ServerDemoMore.flood [ServerDemoMore.wind]);
    reflexivity.
Defined.

Lemma get_alerts_ignores_unshown_fields_witness :
  (run (get_alerts toUpperCaseAscii ServerDemoMore.stormy "CA")).1
  = (run (get_alerts toUpperCaseAscii ServerDemoMore.stormy_elsewhere "CA")).1.
Proof.
  apply (get_alerts_ignores_unshown_fields toUpperCaseAscii
           ServerDemoMore.stormy ServerDemoMore.stormy_elsewhere "CA"
           {| features := Some [ServerDemoMore.flood; ServerDemoMore.wind] |}
           {| features :=
                Some [ServerDemoMore.flood; ServerDemoMore.wind_elsewhere] |});
    reflexivity.
Defined.

(** *** The forecast tool *)

Section Forecast.
Context {number : Type} (toFixed : number → nat → string)
        (toString : number → string).
Implicit Types (net : Network number) (latitude longitude : number).

(** X7.  When the points lookup yields a locator and the forecast has one
    period or more, [get_forecast] answers [Forecast for <lat>, <lon>:] with
    the coordinates as given (not rounded), followed by the line of every
    period: each line is in the text, with the word [undefined] where the
    period lacks the name, the temperature, the unit or the short forecast. *)
Theorem get_forecast_lists_every_period net latitude longitude (url : string)
    (first : ForecastPeriod number) (others : list (ForecastPeriod number)) :
  locator toFixed net latitude longitude = Some url →
  periods_of net url = first :: others →
  ∃ t lines,
    (run (get_forecast toFixed toString net latitude longitude)).1
      = Normal {| content := [{| type := "text"; text := t |}] |}
    ∧ t = "Forecast for " +:+ toString latitude +:+ ", " +:+ toString longitude
          +:+ ":" +:+ LF +:+ LF +:+ lines
    ∧ ∀ p, p ∈ first :: others →
        includes lines
          (default "undefined" (name p) +:+ ": "
           +:+ default "undefined" (toString <$> temperature p) +:+ degree
           +:+ default "undefined" (temperatureUnit p) +:+ " - "
           +:+ default "undefined" (shortForecast p)).
Proof.
  intros Hloc Hperiods. unfold run.
  rewrite (get_forecast_locator toFixed toString net latitude longitude url []
             Hloc), Hperiods.
  do 2 eexists. split; [reflexivity|]. split; [reflexivity|].
  intros p Hp. apply includes_join.
  change (format_period toString p ∈ map (format_period toString) (first :: others)).
  by apply list_elem_of_fmap_2.
Qed.

(** X8.  The text of [get_forecast] is
    [Failed to get forecast URL. Location might be outside US.] exactly when
    no locator was obtained, and [No forecast periods available] exactly
    when a locator was obtained and the request to it gave no period. *)
Theorem get_forecast_text_tells_outcome net latitude longitude :
  ((run (get_forecast toFixed toString net latitude longitude)).1
     = Normal {| content :=
         [{| type := "text";
             text := "Failed to get forecast URL. Location might be outside US." |}] |}
   ↔ locator toFixed net latitude longitude = None)
  ∧ ((run (get_forecast toFixed toString net latitude longitude)).1
       = Normal {| content :=
           [{| type := "text"; text := "No forecast periods available" |}] |}
     ↔ ∃ url,
         locator toFixed net latitude longitude = Some url
         ∧ periods_of net url = []).
Proof.
  unfold run.
  destruct (locator toFixed net latitude longitude) as [url|] eqn:Hloc.
  - rewrite (get_forecast_locator toFixed toString net latitude longitude url []
               Hloc).
    destruct (periods_of net url) as [|p ps] eqn:Hperiods; cbn [fst]; split; split.
    all: first
      [ by (intros H; cbv in H; discriminate H)
      | by (intros H; discriminate H)
      | by (intros (u & [= <-] & H); rewrite Hperiods in H; discriminate H)
      | by (intros _; reflexivity)
      | by (intros _; exists url) ].
  - rewrite (get_forecast_no_locator toFixed toString net latitude longitude []
               Hloc).
    cbn [fst]. split; split.
    all: first
      [ by (intros H; discriminate H)
      | by (intros (u & H & _); discriminate H)
      | by (intros _; reflexivity) ].
Qed.

(** X9.  [get_forecast] prints the name, the temperature, its unit and the
    short forecast of a period and nothing else of it: two forecasts whose
    periods agree on these four fields, in order, give the same result,
    whatever their wind speed and direction. *)
Theorem get_forecast_ignores_wind net1 net2 latitude longitude (url1 url2 : string) :
  locator toFixed net1 latitude longitude = Some url1 →
  locator toFixed net2 latitude longitude = Some url2 →
  map shown_period (periods_of net1 url1) = map shown_period (periods_of net2 url2) →
  (run (get_forecast toFixed toString net1 latitude longitude)).1
  = (run (get_forecast toFixed toString net2 latitude longitude)).1.
Proof.
  intros H1 H2 Hshown. unfold run.
  rewrite (get_forecast_locator toFixed toString net1 latitude longitude url1 [] H1).
  rewrite (get_forecast_locator toFixed toString net2 latitude longitude url2 [] H2).
  assert (Hlines : map (format_period toString) (periods_of net1 url1)
                   = map (format_period toString) (periods_of net2 url2)).
  { apply (map_through (format_period toString) shown_period
             (λ '(n, t, u, sf),
                interpolate n +:+ ": " +:+ interpolate (toString <$> t) +:+ degree
                +:+ interpolate u +:+ " - " +:+ interpolate sf));
      [reflexivity | exact Hshown]. }
  destruct (periods_of net1 url1) as [|p1 l1], (periods_of net2 url2) as [|p2 l2];
    try discriminate Hshown.
  - reflexivity.
  - cbn [fst]. by rewrite Hlines.
Qed.

(** X10.  A points body whose forecast locator is the empty string is
    treated as having none: [get_forecast] answers that the location might
    be outside the US and sends no request to the empty locator. *)
Theorem get_forecast_empty_locator net latitude longitude
    (pointsData : PointsResponse) (props : PointsProperties) :
  payload (points_reply toFixed net latitude longitude) = Some pointsData →
  points_properties pointsData = Some props →
  forecast props = Some "" →
  run (get_forecast toFixed toString net latitude longitude)
  = (Normal {| content :=
       [{| type := "text";
           text := "Failed to get forecast URL. Location might be outside US." |}] |},
     [Fetch (pointsUrl toFixed latitude longitude) nws_headers]).
Proof.
  intros Hdata Hprops Hempty. unfold run.
  rewrite get_forecast_no_locator.
  - by rewrite (payload_diagnostic _ _ _ Hdata).
  - unfold locator, forecast_url, chain.
    by rewrite Hdata, Hprops, Hempty.
Qed.

End Forecast.

Lemma get_forecast_lists_every_period_witness :
  ∃ t lines,
    (run (get_forecast ServerDemo.toFixed ServerDemo.toString
            ServerDemoMore.stormy 38 122)).1
      = Normal {| content := [{| type := "text"; text := t |}] |}
    ∧ t = "Forecast for " +:+ ServerDemo.toString 38 +:+ ", "
          +:+ ServerDemo.toString 122 +:+ ":" +:+ LF +:+ LF +:+ lines
    ∧ ∀ p, p ∈ [ServerDemoMore.tonight; ServerDemoMore.tomorrow] →
        includes lines
          (default "undefined" (name p) +:+ ": "
           +:+ default "undefined" (ServerDemo.toString <$> temperature p) +:+ degree
           +:+ default "undefined" (temperatureUnit p) +:+ " - "
           +:+ default "undefined" (shortForecast p)).
Proof.
  apply (get_forecast_lists_every_period ServerDemo.toFixed ServerDemo.toString
           ServerDemoMore.stormy 38 122 ServerDemo.gridpoint
           ServerDemoMore.tonight [ServerDemoMore.tomorrow]);
    reflexivity.
Defined.

Lemma get_forecast_ignores_wind_witness :
  (run (get_forecast ServerDemo.toFixed ServerDemo.toString
          ServerDemoMore.stormy 38 122)).1
  = (run (get_forecast ServerDemo.toFixed ServerDemo.toString
            ServerDemoMore.stormy_elsewhere 38 122)).1.
Proof.
  apply (get_forecast_ignores_wind ServerDemo.toFixed ServerDemo.toString
           ServerDemoMore.stormy ServerDemoMore.stormy_elsewhere 38 122
           ServerDemo.gridpoint ServerDemo.gridpoint);
    reflexivity.
Defined.

Lemma get_forecast_empty_locator_witness :
  run (get_forecast ServerDemo.toFixed ServerDemo.toString
         ServerDemoMore.unlocated 38 122)
  = (Normal {| content :=
       [{| type := "text";
           text := "Failed to get forecast URL. Location might be outside US." |}] |},
     [Fetch (pointsUrl ServerDemo.toFixed 38 122) nws_headers]).
Proof.
  apply (get_forecast_empty_locator ServerDemo.toFixed ServerDemo.toString
           ServerDemoMore.unlocated 38 122
           {| points_properties := Some {| forecast := Some "" |} |}
           {| forecast := Some "" |});
    reflexivity.
Defined.

(** *** All three tools *)


End ServerExtra.

(** *** The entry point *)

Module ServerMainFacts.
Import ServerMain.

(** X12.  The provider announces itself only once its transport is
    connected.  If connecting fails, the failure is printed as fatal, the
    process exits with status 1, and the announcement is never printed;
    nothing is thrown out of the entry point either way. *)
Theorem start_outcome (connect : completion Error unit) :
  run (start connect) =
  (Normal tt,
   match connect with
   | Normal _ => [Connect; Diagnostic "Weather MCP Server running on stdio"]
   | Abrupt error => [Connect; Fatal "Fatal error in main():" error; Exit 1]
   end).
Proof.
  unfold run, start, main, try_catch. step_io.
  destruct connect as [[]|e]; reflexivity.
Qed.

End ServerMainFacts.

(** * Further properties of the client *)

Module ClientExtra.
Import Client ClientSpec ClientSpecMore ClientFacts.

Section Bridge.
Context {PropertySchema : Type}.
Implicit Types (tools : list (Tool PropertySchema)).

Lemma declarations_nil : declarations ([] : list (Tool PropertySchema)) = [].
Proof. reflexivity. Qed.

(** X13.  The declarations are determined by, and determine, the name, the
    description, the properties and the required names of each tool: two
    lists of tools get the same declarations exactly when they agree on
    these four, position by position.  Whatever else a tool carries, its
    type tag included, has no part in the declarations. *)
Theorem declarations_determined_by_copied_fields tools1 tools2 :
  declarations tools1 = declarations tools2
  ↔ map copied tools1 = map copied tools2.
Proof.
  revert tools2. induction tools1 as [|t1 tools1 IH]; intros [|t2 tools2];
    rewrite ?declarations_cons, ?declarations_nil; cbn [map]; try done.
  destruct t1 as [n1 d1 [g1 p1 r1]], t2 as [n2 d2 [g2 p2 r2]].
  unfold copied. cbn [name description inputSchema properties required].
  split; intros [= -> -> -> -> Hrest]; f_equal; by apply IH.
Qed.

(** X14.  Whatever the tools, none included, the model is given exactly one
    tool entry; its declarations take over the properties and the required
    names of each tool as they are, absent ones staying absent. *)
Theorem geminiTools_single_entry tools :
  ∃ decls,
    geminiTools tools = [{| functionDeclarations := decls |}]
    ∧ Forall2 (λ tool d,
                 schema_properties (parameters d) = properties (inputSchema tool)
                 ∧ schema_required (parameters d) = required (inputSchema tool))
              tools decls.
Proof.
  eexists. split; [reflexivity|].
  induction tools as [|tool tools IH]; [constructor|].
  cbn [map]. by constructor.
Qed.

End Bridge.

(** *** The agent loop *)

Section Loop.
Context {PropertySchema Args : Type}.
Implicit Types (peers : Peers PropertySchema Args) (tr : list (Event Args)).

(** A bound or an order on a trace that is known event by event. *)
Ltac by_cases_of_trace :=
  cbv [opening calling emit app fst snd];
  split; [reflexivity|];
  split; [vm_compute; lia|];
  split; [vm_compute; lia|];
  split; [vm_compute; lia|];
  intros i t H;
  do 10 (try (destruct i as [|i];
              [first [discriminate H | split; reflexivity]|]));
  discriminate H.

(** Every run of [runAgent], by the answers of its peers. *)
Lemma runAgent_outcome peers :
  run (runAgent peers) =
  match connect peers with
  | Abrupt e => (Abrupt e, [Connect "node" ["./build/index.js"]])
  | Normal _ =>
      match listTools peers with
      | Abrupt e => (Abrupt e, [Connect "node" ["./build/index.js"]; ListTools])
      | Normal tools =>
          match generate peers (geminiTools tools) [Prompt prompt] with
          | Abrupt e => (Abrupt e, opening)
          | Normal result =>
              match requested result with
              | None => (Normal tt, opening)
              | Some call =>
                  match callTool peers (call_name call) (args call) with
                  | Abrupt e => (Abrupt e, opening ++ calling call)
                  | Normal toolResponse =>
                      let reply :=
                        FunctionResponse (call_name call) (content toolResponse) in
                      match generate peers (geminiTools tools) [Prompt prompt; reply] with
                      | Abrupt e =>
                          (Abrupt e, opening ++ calling call ++ [SendMessage reply])
                      | Normal finalResponse =>
                          (Normal tt,
                           opening ++ calling call
                           ++ [SendMessage reply;
                               ConsoleLog [PString "Agent:";
                                           PString (response_text finalResponse)]])
                      end
                  end
              end
          end
      end
  end.
Proof.
  destruct (connect peers) as [[]|e] eqn:Hconnect.
  - destruct (listTools peers) as [tools|e] eqn:Hlist.
    + destruct (generate peers (geminiTools tools) [Prompt prompt])
        as [result|e] eqn:Hgen.
      * destruct (requested result) as [call|] eqn:Hcall.
        -- apply (runAgent_call peers tools result call Hconnect Hlist Hgen Hcall).
        -- apply (runAgent_no_call peers tools result Hconnect Hlist Hgen Hcall).
      * unfold run, runAgent, await. step_io. rewrite Hconnect, Hlist. step_io.
        rewrite sendMessage_run. cbn [startChat chat_tools history app].
        by rewrite Hgen.
    + unfold run, runAgent, await. step_io. by rewrite Hconnect, Hlist.
  - unfold run, runAgent, await. step_io. by rewrite Hconnect.
Qed.

(** X15.  Whatever the provider and the model answer, one run of the
    client calls at most one tool, sends the model at most two messages and
    prints at most one answer; [main] never throws.  An answer is printed
    only after the tool call and after the tool result went to the model:
    wherever an answer stands in the trace, the events before it hold
    exactly one tool call and two messages. *)
Theorem main_bounded peers :
  (run (main peers)).1 = Normal tt
  ∧ length (tool_calls (run (main peers)).2) ≤ 1
  ∧ length (messages (run (main peers)).2) ≤ 2
  ∧ length (answers (run (main peers)).2) ≤ length (tool_calls (run (main peers)).2)
  ∧ ∀ i t,
      (run (main peers)).2 !! i = Some (ConsoleLog [PString "Agent:"; PString t]) →
      length (tool_calls (take i (run (main peers)).2)) = 1
      ∧ length (messages (take i (run (main peers)).2)) = 2.
Proof.
  unfold run, main, try_catch. fold (run (runAgent peers)).
  rewrite runAgent_outcome.
  destruct (connect peers) as [[]|?]; [|by_cases_of_trace].
  destruct (listTools peers) as [tools|?]; [|by_cases_of_trace].
  destruct (generate peers (geminiTools tools) [Prompt prompt]) as [result|?];
    [|by_cases_of_trace].
  destruct (requested result) as [call|]; [|by_cases_of_trace].
  destruct (callTool peers (call_name call) (args call)) as [toolResponse|?];
    [|by_cases_of_trace].
  cbv zeta.
  destruct (generate peers (geminiTools tools)
              [Prompt prompt;
               FunctionResponse (call_name call) (content toolResponse)]);
    by_cases_of_trace.
Qed.

(** X16.  A rejection at any stage ends the run there: [main] prints the
    error with [console.error] and nothing of the later stages happens.  If
    connecting or the discovery fails, the model is never contacted and the
    prompt is not printed; if the model rejects the prompt, no tool is
    called; if the tool call is rejected, the model is not asked again; if
    the model rejects the tool result, no answer is printed. *)
Theorem main_stops_at_first_failure peers (e : Error) :
  (connect peers = Abrupt e →
   run (main peers)
   = (Normal tt, [Connect "node" ["./build/index.js"]; ConsoleError e]))
  ∧ (connect peers = Normal tt → listTools peers = Abrupt e →
     run (main peers)
     = (Normal tt, [Connect "node" ["./build/index.js"]; ListTools; ConsoleError e]))
  ∧ (∀ tools,
       connect peers = Normal tt → listTools peers = Normal tools →
       generate peers (geminiTools tools) [Prompt prompt] = Abrupt e →
       run (main peers) = (Normal tt, opening ++ [ConsoleError e]))
  ∧ (∀ tools result call,
       connect peers = Normal tt → listTools peers = Normal tools →
       generate peers (geminiTools tools) [Prompt prompt] = Normal result →
       requested result = Some call →
       callTool peers (call_name call) (args call) = Abrupt e →
       run (main peers) = (Normal tt, opening ++ calling call ++ [ConsoleError e]))
  ∧ (∀ tools result call toolResponse,
       connect peers = Normal tt → listTools peers = Normal tools →
       generate peers (geminiTools tools) [Prompt prompt] = Normal result →
       requested result = Some call →
       callTool peers (call_name call) (args call) = Normal toolResponse →
       generate peers (geminiTools tools)
         [Prompt prompt; FunctionResponse (call_name call) (content toolResponse)]
         = Abrupt e →
       run (main peers)
       = (Normal tt,
          opening ++ calling call
          ++ [SendMessage (FunctionResponse (call_name call) (content toolResponse));
              ConsoleError e])).
Proof.
  unfold run, main, try_catch. fold (run (runAgent peers)).
  rewrite runAgent_outcome. cbv zeta. repeat split.
  - by intros ->.
  - by intros -> ->.
  - by intros tools -> -> ->.
  - by intros tools result call -> -> -> -> ->.
  - by intros tools result call toolResponse -> -> -> -> -> ->.
Qed.

(** X17.  After a tool call that succeeds, the client sends the model one
    function response, under the name the model asked for and with the
    content of the tool result as it came, and prints the text of the
    model's second response as the answer.  A call requested in that second
    response is not followed: the requested tool stays the only one
    called. *)
Theorem runAgent_feeds_result_back
    peers tools result call (toolResponse : ToolResult)
    (finalResponse : ModelResponse Args) :
  connect peers = Normal tt →
  listTools peers = Normal tools →
  generate peers (geminiTools tools) [Prompt prompt] = Normal result →
  requested result = Some call →
  callTool peers (call_name call) (args call) = Normal toolResponse →
  generate peers (geminiTools tools)
    [Prompt prompt; FunctionResponse (call_name call) (content toolResponse)]
    = Normal finalResponse →
  (run (runAgent peers)).1 = Normal tt
  ∧ messages (run (runAgent peers)).2
    = [Prompt prompt; FunctionResponse (call_name call) (content toolResponse)]
  ∧ answers (run (runAgent peers)).2 = [response_text finalResponse]
  ∧ tool_calls (run (runAgent peers)).2 = [(call_name call, args call)].
Proof.
  intros Hconnect Hlist Hgen Hcall Htool Hfinal.
  rewrite runAgent_outcome, Hconnect, Hlist, Hgen, Hcall, Htool. cbv zeta.
  rewrite Hfinal. by repeat split.
Qed.

(** X18.  Of the calls a response requests, the client follows the first
    and drops the others; a response with an empty list of calls, like one
    with no list, ends the run with no call at all. *)
Theorem runAgent_follows_first_call_only peers tools result :
  connect peers = Normal tt →
  listTools peers = Normal tools →
  generate peers (geminiTools tools) [Prompt prompt] = Normal result →
  match functionCalls result with
  | Some (call :: others) =>
      tool_calls (run (runAgent peers)).2 = [(call_name call, args call)]
  | Some [] | None => run (runAgent peers) = (Normal tt, opening)
  end.
Proof.
  intros Hconnect Hlist Hgen.
  rewrite runAgent_outcome, Hconnect, Hlist, Hgen. unfold requested, chain.
  destruct (functionCalls result) as [[|call others]|]; try reflexivity.
  cbn [head].
  destruct (callTool peers (call_name call) (args call)) as [toolResponse|?];
    [|reflexivity].
  cbv zeta.
  by destruct (generate peers (geminiTools tools)
                 [Prompt prompt;
                  FunctionResponse (call_name call) (content toolResponse)]).
Qed.

End Loop.

Lemma main_stops_at_first_failure_witness :
  run (main ClientDemoMore.unreachable)
  = (Normal tt, [Connect "node" ["./build/index.js"];
                 ConsoleError (Rejection "spawn node ENOENT")]).
Proof.
  destruct (main_stops_at_first_failure ClientDemoMore.unreachable
              (Rejection "spawn node ENOENT")) as [Hconnect _].
  apply Hconnect. reflexivity.
Defined.

Lemma runAgent_feeds_result_back_witness :
  (run (runAgent ClientDemo.helpful)).1 = Normal tt
  ∧ messages (run (runAgent ClientDemo.helpful)).2
    = [Prompt prompt;
       FunctionResponse "get_alerts" [text_block "Failed to retrieve alerts data"]]
  ∧ answers (run (runAgent ClientDemo.helpful)).2 = ["I could not check the alerts."]
  ∧ tool_calls (run (runAgent ClientDemo.helpful)).2
    = [("get_alerts", [("state", "CA")])].
Proof.
  apply (runAgent_feeds_result_back ClientDemo.helpful ClientDemo.weather_tools
           {| response_text := "";
              functionCalls :=
                Some [{| call_name := "get_alerts"; args := [("state", "CA")] |}] |}
           {| call_name := "get_alerts"; args := [("state", "CA")] |}
           {| content := [text_block "Failed to retrieve alerts data"] |}
           {| response_text := "I could not check the alerts.";
              functionCalls := None |});
    reflexivity.
Defined.

Lemma runAgent_follows_first_call_only_witness :
  tool_calls (run (runAgent ClientDemoMore.eager)).2
  = [("get_coordinates", [("city", "Livermore"); ("state", "CA")])].
Proof.
  apply (runAgent_follows_first_call_only ClientDemoMore.eager
           ClientDemo.weather_tools
           {| response_text := "";
              functionCalls :=
                Some [{| call_name := "get_coordinates";
                         args := [("city", "Livermore"); ("state", "CA")] |};
                      {| call_name := "get_alerts";
                         args := [("state", "CA")] |}] |});
    reflexivity.
Defined.

End ClientExtra.
